(** * SignSense hand-sign classifier: a shallow embedding of [app.py]

    The development follows the two functions of the classification core,
    [dist] and [classify_sign], over a model of the Python values the
    HTTP layer hands to them (decoded JSON, plus tuples).  Python floats
    are IEEE binary64 numbers and are modelled by the kernel's primitive
    floats; Python exceptions are modelled by an explicit error result. *)

From Stdlib Require Import ZArith Bool Floats.
From stdpp Require Import base option list strings gmap.

Set Warnings "-inexact-float,-register-all".
Local Open Scope string_scope.
Local Open Scope list_scope.

(** ** Python values *)

(** The values that reach the classifier: what [request.get_json] decodes
    (None, booleans, integers, floats, strings, lists, string-keyed dicts)
    and tuples, the other built-in sequence a direct caller can pass.  A
    dict is an association list; [dict_get] reads its first binding. *)
Inductive value : Type :=
  | VNone
  | VBool (b : bool)
  | VInt (n : Z)
  | VFloat (f : float)
  | VStr (s : string)
  | VList (l : list value)
  | VTuple (l : list value)
  | VDict (d : list (string * value)).

(** The exceptions the core can raise. *)
Inductive exn : Type :=
  | AttributeError
  | TypeError
  | ValueError
  | OverflowError.

(** A Python computation either returns a value or raises. *)
Inductive result (A : Type) : Type :=
  | Ok (a : A)
  | Raise (e : exn).
Arguments Ok {A} a.
Arguments Raise {A} e.

(** Sequencing: the first exception raised ends the computation. *)
#[global] Instance result_bind : MBind result := λ A B k c,
  match c with
  | Ok a => k a
  | Raise e => Raise e
  end.

Definition returns {A : Type} (c : result A) : Prop := exists a, c = Ok a.

Definition raises {A : Type} (c : result A) : Prop := exists e, c = Raise e.

(** Python truthiness, as [not v] and [if v:] read it. *)
Definition truthy (v : value) : bool :=
  match v with
  | VNone => false
  | VBool b => b
  | VInt n => negb (n =? 0)%Z
  | VFloat f => negb (f =? 0)%float
  | VStr s => negb (String.eqb s "")
  | VList l => negb (Nat.eqb (length l) 0)
  | VTuple l => negb (Nat.eqb (length l) 0)
  | VDict d => negb (Nat.eqb (length d) 0)
  end.

(** [hash(v)] succeeds: lists and dicts are unhashable, a tuple is hashable
    when its items are. *)
Fixpoint hashable (v : value) : bool :=
  match v with
  | VList _ | VDict _ => false
  | VTuple l => forallb hashable l
  | _ => true
  end.

Fixpoint dict_get (d : list (string * value)) (key : string) (default : value) : value :=
  match d with
  | [] => default
  | (k, v) :: rest => if String.eqb k key then v else dict_get rest key default
  end.

(** [v.get(key, default)]: only a dict has the method. *)
Definition py_get (v : value) (key : string) (default : value) : result value :=
  match v with
  | VDict d => Ok (dict_get d key default)
  | _ => Raise AttributeError
  end.

(** [float(n)] for an integer: the nearest binary64 number, ties to even;
    OverflowError when that is beyond the largest finite float. *)
Definition float_of_int (n : Z) : result float :=
  match SpecFloat.binary_normalize prec emax n 0 false with
  | S754_infinity _ => Raise OverflowError
  | sf => Ok (SF2Prim sf)
  end.

(** ** A reference runtime and sample frames *)

(** The textbook [hypot], exact on the dyadic coordinates of the frames
    below, and a [float()] that parses no string: the sample frames carry
    numeric coordinates only. *)
Definition hypot_sqrt (x y : float) : float := sqrt (x * x + y * y)%float.

Definition no_str (s : string) : option float := None.

(** A landmark on the x axis, and the same with a name. *)
Definition pt (x : float) : value := VDict [("x", VFloat x)].

Definition named_pt (name : string) (x : float) : value :=
  VDict [("x", VFloat x); ("name", VStr name)].

(** A frame from the landmarks the classifier reads (in index order 0, 3,
    4, 6, 8, 10, 12, 14, 16, 18, 20); every other landmark sits at [rest]. *)
Definition frame_of (rest wrist thumb_ip thumb_tip index_pip index_tip
    middle_pip middle_tip ring_pip ring_tip pinky_pip pinky_tip : value) : list value :=
  [wrist; rest; rest; thumb_ip; thumb_tip; rest; index_pip; rest; index_tip;
   rest; middle_pip; rest; middle_tip; rest; ring_pip; rest; ring_tip;
   rest; pinky_pip; rest; pinky_tip].

(** Thumb tip beyond its joint, index tip touching the thumb tip short of
    its own joint, the other fingers folded onto the wrist. *)
Definition thumb_pinch_frame : list value :=
  frame_of (pt 0) (pt 0) (pt 0.25) (pt 0.5) (pt 0.75) (pt 0.5)
    (pt 0) (pt 0) (pt 0) (pt 0) (pt 0) (pt 0).

(** Index finger stretched out, thumb tip resting on the index tip. *)
Definition point_pinch_frame : list value :=
  frame_of (pt 0) (pt 0) (pt 0.5) (pt 0.5) (pt 0.25) (pt 0.5)
    (pt 0) (pt 0) (pt 0) (pt 0) (pt 0) (pt 0).

(** Only the thumb stretched out, the index tip far from it. *)
Definition thumbs_up_frame : list value :=
  frame_of (pt 0) (pt 0) (pt 0.25) (pt 0.5) (pt 0) (pt 0)
    (pt 0) (pt 0) (pt 0) (pt 0) (pt 0) (pt 0).

(** Pinky alone stretched out, thumb tip resting on the index tip. *)
Definition pinky_pinch_frame : list value :=
  frame_of (pt 0) (pt 0) (pt 0) (pt 0) (pt 0) (pt 0)
    (pt 0) (pt 0) (pt 0) (pt 0) (pt 0.25) (pt 0.5).

(** Twenty-one items that are not landmark records. *)
Definition integers_frame : list value := replicate 21 (VInt 1).

(** No landmark is named and the wrist slot holds None. *)
Definition none_wrist_frame : list value := VNone :: replicate 20 (pt 0).

(** No landmark is named and the wrist slot holds an empty record. *)
Definition empty_wrist_frame : list value := VDict [] :: replicate 20 (pt 0).

(** No landmark is named and the wrist slot holds the number 0. *)
Definition zero_wrist_frame : list value := VInt 0 :: replicate 20 (pt 0).

(** Two landmarks named wrist, neither in the wrist slot. *)
Definition twice_named_frame : list value :=
  replicate 5 (pt 0) ++ named_pt "wrist" 0.25 :: replicate 3 (pt 0)
  ++ named_pt "wrist" 0.5 :: replicate 11 (pt 0).

(** No finger stretched out, thumb tip and index tip apart. *)
Definition fist_frame : list value :=
  frame_of (pt 0) (pt 0) (pt 0.5) (pt 0.5) (pt 0.25) (pt 0.25)
    (pt 0) (pt 0) (pt 0) (pt 0) (pt 0) (pt 0).

(** Thumb, index and middle finger stretched out, the tips apart. *)
Definition peace_frame : list value :=
  frame_of (pt 0) (pt 0) (pt 0.25) (pt 0.5) (pt 0.25) (pt 0.75)
    (pt 0.25) (pt 0.75) (pt 0) (pt 0) (pt 0) (pt 0).

(** Only the ring finger stretched out, thumb tip and index tip apart. *)
Definition ring_frame : list value :=
  frame_of (pt 0) (pt 0) (pt 0.5) (pt 0.5) (pt 0.25) (pt 0.25)
    (pt 0) (pt 0) (pt 0.25) (pt 0.5) (pt 0) (pt 0).

(** The thumbs-up frame with a list as the name of landmark 7. *)
Definition list_named_frame : list value :=
  <[7%nat := VDict [("name", VList [VInt 1])]]> thumbs_up_frame.

(** The thumbs-up frame with other landmarks off the eleven slots. *)
Definition thumbs_up_frame_noisy : list value :=
  frame_of (VDict [("x", VNone)]) (pt 0) (pt 0.25) (pt 0.5) (pt 0) (pt 0)
    (pt 0) (pt 0) (pt 0) (pt 0) (pt 0) (pt 0) ++ [VDict [("y", VStr "far")]].

Section Core.

(** [math.hypot] and the string branch of [float()] belong to the Python
    runtime, not to the repository; the core is parametric in them.
    [float_of_str s = None] stands for the ValueError of [float(s)]. *)
Variable hypot : float -> float -> float.
Variable float_of_str : string -> option float.

(** [float(v)]. *)
Definition py_float (v : value) : result float :=
  match v with
  | VFloat f => Ok f
  | VInt n => float_of_int n
  | VBool b => Ok (if b then 1%float else 0%float)
  | VStr s =>
      match float_of_str s with
      | Some f => Ok f
      | None => Raise ValueError
      end
  | VNone | VList _ | VTuple _ | VDict _ => Raise TypeError
  end.

(** [float(a.get(key, 0.0))]. *)
Definition coord (a : value) (key : string) : result float :=
  c ← py_get a key (VFloat 0); py_float c.

(** ** [dist] *)

Definition dist (a b : value) : result float :=
  if negb (truthy a) || negb (truthy b) then Ok 0%float
  else
    ax ← coord a "x";
    ay ← coord a "y";
    bx ← coord b "x";
    by_ ← coord b "y";
    Ok (hypot (ax - bx) (ay - by_)).

(** ** [classify_sign] *)

(** The return value: label, confidence and the debug dict. *)
Definition answer : Type := string * float * list (string * value).

(** [by_name[name] = lm].  The dict is only ever read at the string keys
    [g] passes, and a string key equals no number, boolean or tuple, so a
    binding stored under a key that is not a string cannot be observed:
    the map keeps the string keys. *)
Definition store (name lm : value) (by_name : gmap string value) : gmap string value :=
  match name with
  | VStr s => <[s:=lm]> by_name
  | _ => by_name
  end.

(** One turn of the loop that fills [by_name]. *)
Definition index_step (by_name : gmap string value) (lm : value)
  : result (gmap string value) :=
  name ← py_get lm "name" VNone;
  if truthy name then
    if hashable name then Ok (store name lm by_name) else Raise TypeError
  else Ok by_name.

Fixpoint index_loop (by_name : gmap string value) (landmarks : list value)
  : result (gmap string value) :=
  match landmarks with
  | [] => Ok by_name
  | lm :: rest => by_name' ← index_step by_name lm; index_loop by_name' rest
  end.

Definition index_by_name (landmarks : list value) : result (gmap string value) :=
  index_loop ∅ landmarks.

(** The inner function [g]: by name, else by index, else None. *)
Definition g (by_name : gmap string value) (landmarks : list value)
    (name : string) (idx : nat) : value :=
  match by_name !! name with
  | Some lm => lm
  | None =>
      match landmarks !! idx with
      | Some lm => lm
      | None => VNone
      end
  end.

(** The eleven landmarks the classifier reads. *)
Record roles : Type := Roles {
  wrist : value;
  thumb_tip : value;  thumb_ip : value;
  index_tip : value;  index_pip : value;
  middle_tip : value; middle_pip : value;
  ring_tip : value;   ring_pip : value;
  pinky_tip : value;  pinky_pip : value
}.

Definition resolve (by_name : gmap string value) (landmarks : list value) : roles :=
  let g := g by_name landmarks in
  {| wrist := g "wrist" 0;
     thumb_tip := g "thumb_tip" 4;
     thumb_ip := g "thumb_ip" 3;
     index_tip := g "index_finger_tip" 8;
     index_pip := g "index_finger_pip" 6;
     middle_tip := g "middle_finger_tip" 12;
     middle_pip := g "middle_finger_pip" 10;
     ring_tip := g "ring_finger_tip" 16;
     ring_pip := g "ring_finger_pip" 14;
     pinky_tip := g "pinky_finger_tip" 20;
     pinky_pip := g "pinky_finger_pip" 18 |}.

(** The inner function [extended], with the [wrist] it closes over. *)
Definition extended (wrist tip pip : value) : result bool :=
  if negb (truthy tip) || negb (truthy pip) then Ok false
  else
    d_tip ← dist tip wrist;
    d_pip ← dist pip wrist;
    Ok (d_pip + 0.04 <? d_tip)%float.

(** The dict [fingers], by its five flags. *)
Record fingers : Type := Fingers {
  thumb : bool;
  index : bool;
  middle : bool;
  ring : bool;
  pinky : bool
}.

Definition finger_states (r : roles) : result fingers :=
  thumb ← extended (wrist r) (thumb_tip r) (thumb_ip r);
  index ← extended (wrist r) (index_tip r) (index_pip r);
  middle ← extended (wrist r) (middle_tip r) (middle_pip r);
  ring ← extended (wrist r) (ring_tip r) (ring_pip r);
  pinky ← extended (wrist r) (pinky_tip r) (pinky_pip r);
  Ok (Fingers thumb index middle ring pinky).

(** [fingers] as the dict literal builds it. *)
Definition fingers_dict (f : fingers) : list (string * value) :=
  [("thumb", VBool (thumb f)); ("index", VBool (index f));
   ("middle", VBool (middle f)); ("ring", VBool (ring f));
   ("pinky", VBool (pinky f))].

(** [sum(fingers.values())]. *)
Definition count (f : fingers) : nat :=
  Nat.b2n (thumb f) + Nat.b2n (index f) + Nat.b2n (middle f)
  + Nat.b2n (ring f) + Nat.b2n (pinky f).

(** [{**fingers, "reason": code}]. *)
Definition with_reason (f : fingers) (code : string) : list (string * value) :=
  (fingers_dict f ++ [("reason", VStr code)])%list.

(** The rule table, in the order of the source. *)
Definition sign_rules (f : fingers) (thumb_tip index_tip : value) (pinch_d : float)
  : answer :=
  let '(Fingers thumb index middle ring pinky) := f in
  if pinky && negb thumb && negb index && negb middle && negb ring then
    ("Pinky", 0.88%float, with_reason f "TOILET")
  else if middle && negb thumb && negb index && negb ring && negb pinky then
    ("Middle", 0.88%float, with_reason f "ANGRY")
  else if ring && middle && pinky && negb thumb && negb index then
    ("Ring Pinky Middle", 0.90%float, with_reason f "AWESOME")
  else if truthy thumb_tip && truthy index_tip && (pinch_d <? 0.06)%float then
    ("Pinch", 0.86%float, (fingers_dict f ++ [("pinch_distance", VFloat pinch_d)])%list)
  else if index && negb middle && negb ring && negb pinky then
    ("Point", 0.87%float, with_reason f "POINT")
  else if index && middle && negb ring && negb pinky then
    ("Peace", 0.88%float, with_reason f "PEACE")
  else if index && pinky && negb middle && negb ring then
    ("Rock", 0.88%float, with_reason f "ROCK")
  else if thumb && Nat.eqb (count f) 1 then
    ("Thumbs Up", 0.90%float, with_reason f "THUMBS_UP")
  else if Nat.eqb (count f) 0 then
    ("Fist", 0.85%float, with_reason f "FIST")
  else if Nat.eqb (count f) 5 then
    ("Open Hand", 0.92%float, with_reason f "OPEN_HAND")
  else if Nat.eqb (count f) 4 then
    ("Four Fingers", 0.82%float, with_reason f "FOUR")
  else if Nat.eqb (count f) 3 then
    ("Three Fingers", 0.80%float, with_reason f "THREE")
  else
    ("Unknown", 0.30%float, with_reason f "UNKNOWN").

Definition not_enough_landmarks : answer :=
  ("Unknown", 0.2%float, [("error", VStr "NOT_ENOUGH_LANDMARKS")]).

Definition no_wrist : answer :=
  ("Unknown", 0.1%float, [("error", VStr "NO_WRIST")]).

(** The body of [classify_sign] once [landmarks] is a list of 21 or more. *)
Definition classify_list (landmarks : list value) : result answer :=
  by_name ← index_by_name landmarks;
  let r := resolve by_name landmarks in
  if negb (truthy (wrist r)) then Ok no_wrist
  else
    f ← finger_states r;
    pinch_d ← dist (thumb_tip r) (index_tip r);
    Ok (sign_rules f (thumb_tip r) (index_tip r) pinch_d).

Definition classify_sign (landmarks : value) : result answer :=
  match landmarks with
  | VList l =>
      if (length l <? 21)%nat then Ok not_enough_landmarks else classify_list l
  | _ => Ok not_enough_landmarks
  end.

(** ** [api_handsign] *)

(** [isinstance(v, list)]. *)
Definition is_list (v : value) : bool :=
  match v with
  | VList _ => true
  | _ => false
  end.

(** The two dicts the route hands to [jsonify]; a response is the dict
    with its status code. *)
Definition no_landmarks_body : value :=
  VDict [("success", VBool false); ("error", VStr "NO_LANDMARKS");
         ("message", VStr "No landmarks provided.")].

Definition success_body (a : answer) : value :=
  let '(sign, confidence, debug) := a in
  VDict [("success", VBool true); ("sign", VStr sign);
         ("confidence", VFloat confidence); ("debug", VDict debug)].

(** The route, from what [request.get_json(silent=True)] returned: the
    decoded body, or None when there is no JSON to decode. *)
Definition api_handsign (body : value) : result (value * Z) :=
  let data := if truthy body then body else VDict [] in
  landmarks ← py_get data "landmarks" VNone;
  if negb (is_list landmarks) || negb (truthy landmarks) then
    Ok (no_landmarks_body, 200%Z)
  else
    a ← classify_sign landmarks;
    Ok (success_body a, 200%Z).

(** ** Notions the statements use *)

Definition is_ok {A : Type} (c : result A) : bool :=
  match c with
  | Ok _ => true
  | Raise _ => false
  end.

(** An argument [dist] can measure: absent (falsy), or a record whose
    coordinates [float()] accepts. *)
Definition readable (v : value) : bool :=
  negb (truthy v) || (is_ok (coord v "x") && is_ok (coord v "y")).

(** An item the indexing loop accepts: a dict whose name, when it has one
    (a truthy one), can be a dict key. *)
Definition nameable (lm : value) : bool :=
  match lm with
  | VDict d =>
      let name := dict_get d "name" VNone in
      negb (truthy name) || hashable name
  | _ => false
  end.

(** A landmark record as the docstring of [classify_sign] describes it: a
    dict the loop accepts whose coordinates [float()] accepts. *)
Definition landmark_record (lm : value) : bool :=
  nameable lm && is_ok (coord lm "x") && is_ok (coord lm "y").

(** [lm] carries the name [n]. *)
Definition carries_name (lm : value) (n : string) : Prop :=
  py_get lm "name" VNone = Ok (VStr n).

(** The call [classify_sign(landmarks)] passes both early exits and
    enters the rule table with finger flags [f], the resolved tips [tt]
    and [it], and pinch distance [pd]. *)
Definition rule_table_input (landmarks : list value) (f : fingers)
    (tt it : value) (pd : float) : Prop :=
  (21 ≤ length landmarks)%nat ∧
  ∃ by_name,
    index_by_name landmarks = Ok by_name ∧
    truthy (wrist (resolve by_name landmarks)) = true ∧
    finger_states (resolve by_name landmarks) = Ok f ∧
    tt = thumb_tip (resolve by_name landmarks) ∧
    it = index_tip (resolve by_name landmarks) ∧
    dist tt it = Ok pd.

(** The built-in sequence types among the values, and [len]. *)
Definition is_sequence (v : value) : bool :=
  match v with
  | VList _ | VTuple _ | VStr _ => true
  | _ => false
  end.

Definition py_len (v : value) : nat :=
  match v with
  | VList l | VTuple l => length l
  | VStr s => String.length s
  | VDict d => length d
  | _ => 0
  end.

(** [key in d]. *)
Definition dict_has (d : list (string * value)) (key : string) : bool :=
  existsb (λ kv, String.eqb (fst kv) key) d.

(** The finger patterns of the first three rules. *)
Definition pinky_only (f : fingers) : bool :=
  pinky f && negb (thumb f) && negb (index f) && negb (middle f) && negb (ring f).

Definition middle_only (f : fingers) : bool :=
  middle f && negb (thumb f) && negb (index f) && negb (ring f) && negb (pinky f).

Definition ring_middle_pinky (f : fingers) : bool :=
  ring f && middle f && pinky f && negb (thumb f) && negb (index f).

(** The pinch test of the fourth rule. *)
Definition pinch_test (tt it : value) (pd : float) : bool :=
  truthy tt && truthy it && (pd <? 0.06)%float.

Definition label_of (a : answer) : string := a.1.1.

Definition debug_of (a : answer) : list (string * value) := a.2.

(** The reason codes of the rule table. *)
Definition reason_codes : list string :=
  ["TOILET"; "ANGRY"; "AWESOME"; "POINT"; "PEACE"; "ROCK"; "THUMBS_UP";
   "FIST"; "OPEN_HAND"; "FOUR"; "THREE"; "UNKNOWN"].

(** The labels of the return statements. *)
Definition labels : list string :=
  ["Unknown"; "Pinky"; "Middle"; "Ring Pinky Middle"; "Pinch"; "Point";
   "Peace"; "Rock"; "Thumbs Up"; "Fist"; "Open Hand"; "Four Fingers";
   "Three Fingers"].

Definition confidence_of (a : answer) : float := a.1.2.

(** A record without a (truthy) name. *)
Definition unnamed (lm : value) : bool :=
  match lm with
  | VDict d => negb (truthy (dict_get d "name" VNone))
  | _ => false
  end.

(** The slots [g] falls back to. *)
Definition role_slots : list nat := [0; 3; 4; 6; 8; 10; 12; 14; 16; 18; 20]%nat.

(** [isinstance(v, dict)]. *)
Definition is_dict (v : value) : bool :=
  match v with
  | VDict _ => true
  | _ => false
  end.

(** The four coordinates [dist] reads all convert. *)
Definition measurable (a b : value) : bool :=
  is_ok (coord a "x") && is_ok (coord a "y")
  && is_ok (coord b "x") && is_ok (coord b "y").

(** ** Sequencing *)

Lemma bind_Ok {A B : Type} (c : result A) (k : A → result B) (b : B) :
  c ≫= k = Ok b ↔ ∃ a, c = Ok a ∧ k a = Ok b.
Proof.
  destruct c as [a|e]; simpl; split.
  - intros H. exists a. auto.
  - intros (a' & [= <-] & H). exact H.
  - discriminate.
  - intros (a' & [=] & _).
Qed.

Lemma bind_Ok_l {A B : Type} (a : A) (k : A → result B) : Ok a ≫= k = k a.
Proof. reflexivity. Qed.

Lemma is_ok_returns {A : Type} (c : result A) : is_ok c = true ↔ returns c.
Proof.
  destruct c as [a|e]; simpl; split; try discriminate; eauto.
  - by exists a.
  - intros [a' [=]].
Qed.

(** ** Facts about binary64 arithmetic *)

Lemma SFltb_irrefl (s : spec_float) : SFltb s s = false.
Proof.
  unfold SFltb, SFcompare.
  destruct s as [[]|[]| |[] m e]; try reflexivity;
    rewrite Z.compare_refl, ?Pos.compare_refl; reflexivity.
Qed.

(** No float is below itself (not even NaN). *)
Lemma ltb_irrefl (x : float) : (x <? x)%float = false.
Proof. rewrite ltb_spec. apply SFltb_irrefl. Qed.

(** Rounding to nearest even treats both signs alike. *)
Lemma SFabs_round_aux_sign (sx sy : bool) (m e : Z) (l : location) :
  SFabs (binary_round_aux prec emax sx m e l)
  = SFabs (binary_round_aux prec emax sy m e l).
Proof.
  unfold binary_round_aux.
  destruct (shr_fexp prec emax m e l) as [mrs' e'].
  destruct (shr_fexp prec emax _ e' loc_Exact) as [mrs'' e''].
  destruct (shr_m mrs''); try reflexivity.
  destruct (e'' <=? emax - prec)%Z; reflexivity.
Qed.

Lemma SFabs_normalize_opp (m e : Z) :
  SFabs (binary_normalize prec emax (- m) e false)
  = SFabs (binary_normalize prec emax m e false).
Proof.
  destruct m as [|p|p]; simpl; try reflexivity; unfold binary_round;
    destruct (shl_align p e _) as [mz ez]; apply SFabs_round_aux_sign.
Qed.

Lemma SFabs_sub_swap (x y : spec_float) :
  SFabs (SF64sub x y) = SFabs (SF64sub y x).
Proof.
  unfold SF64sub, SFsub.
  destruct x as [[]|[]| |sx mx ex], y as [[]|[]| |sy my ey]; try reflexivity.
  cbv zeta. rewrite (Z.min_comm ey ex).
  rewrite <- SFabs_normalize_opp. f_equal. f_equal. lia.
Qed.

(** The two differences of a pair of floats have the same magnitude. *)
Lemma abs_sub_swap (a b : float) : abs (a - b) = abs (b - a).
Proof.
  apply Prim2SF_inj. rewrite !abs_spec, !sub_spec. apply SFabs_sub_swap.
Qed.

Lemma SFmul_abs (x : spec_float) : SF64mul (SFabs x) (SFabs x) = SF64mul x x.
Proof. destruct x as [[]|[]| |[] m e]; reflexivity. Qed.

Lemma mul_abs (x : float) : (abs x * abs x = x * x)%float.
Proof.
  apply Prim2SF_inj. rewrite !mul_spec, !abs_spec. apply SFmul_abs.
Qed.

(** ** [dist] *)

Lemma dist_falsy_l (a b : value) : truthy a = false → dist a b = Ok 0%float.
Proof. intros H. unfold dist. rewrite H. reflexivity. Qed.

Lemma dist_falsy_r (a b : value) : truthy b = false → dist a b = Ok 0%float.
Proof. intros H. unfold dist. rewrite H, orb_true_r. reflexivity. Qed.

Lemma dist_truthy (a b : value) :
  truthy a = true → truthy b = true →
  dist a b =
    (ax ← coord a "x"; ay ← coord a "y"; bx ← coord b "x"; by_ ← coord b "y";
     Ok (hypot (ax - bx) (ay - by_))).
Proof. intros Ha Hb. unfold dist. rewrite Ha, Hb. reflexivity. Qed.

Lemma readable_cases (v : value) :
  readable v = true →
  truthy v = false ∨
  (truthy v = true ∧ ∃ x y, coord v "x" = Ok x ∧ coord v "y" = Ok y).
Proof.
  unfold readable. destruct (truthy v); simpl; [|auto].
  intros [Hx Hy]%andb_true_iff. right. split; [reflexivity|].
  apply is_ok_returns in Hx as [x Hx]. apply is_ok_returns in Hy as [y Hy].
  eauto.
Qed.

Lemma dist_returns (a b : value) :
  readable a = true → readable b = true → returns (dist a b).
Proof.
  intros [Ha|[Ha (ax & ay & Hax & Hay)]]%readable_cases.
  { intros _. rewrite dist_falsy_l by done. eexists; reflexivity. }
  intros [Hb|[Hb (bx & by_ & Hbx & Hby)]]%readable_cases.
  { rewrite dist_falsy_r by done. eexists; reflexivity. }
  rewrite dist_truthy by done. rewrite Hax, Hay, Hbx, Hby. simpl.
  eexists; reflexivity.
Qed.

Section Symmetry.

(** [math.hypot] reads the magnitudes of its arguments (C's [hypot(x, y)]
    and [hypot(-x, y)] are the same number). *)
Hypothesis hypot_even : ∀ x y : float, hypot x y = hypot (abs x) (abs y).

Lemma hypot_sub_swap (ax bx ay by_ : float) :
  hypot (ax - bx) (ay - by_) = hypot (bx - ax) (by_ - ay).
Proof.
  rewrite (hypot_even (ax - bx)), (hypot_even (bx - ax)).
  rewrite (abs_sub_swap ax bx), (abs_sub_swap ay by_). reflexivity.
Qed.

(** Swapping the arguments of [dist] swaps nothing but, when both
    arguments are faulty, the exception that surfaces first. *)
Lemma dist_swap (a b : value) :
  dist a b = dist b a ∨ (raises (dist a b) ∧ raises (dist b a)).
Proof.
  destruct (truthy a) eqn:Ha.
  2:{ left. rewrite (dist_falsy_l a b), (dist_falsy_r b a) by done. reflexivity. }
  destruct (truthy b) eqn:Hb.
  2:{ left. rewrite (dist_falsy_r a b), (dist_falsy_l b a) by done. reflexivity. }
  rewrite !dist_truthy by done.
  destruct (coord a "x") as [ax|ea1], (coord a "y") as [ay|ea2],
    (coord b "x") as [bx|eb1], (coord b "y") as [by_|eb2]; simpl;
    try (right; split; eexists; reflexivity).
  left. f_equal. apply hypot_sub_swap.
Qed.

(** C8: [dist] is symmetric.  For every pair of landmark arguments, each
    absent (falsy) or a record with coordinates [float()] accepts,
    [dist(a, b)] returns, and it returns what [dist(b, a)] returns. *)
Theorem dist_symmetric (a b : value) :
  readable a = true → readable b = true →
  returns (dist a b) ∧ dist a b = dist b a.
Proof.
  intros Ha Hb. pose proof (dist_returns a b Ha Hb) as [d Hd].
  split; [by exists d|].
  destruct (dist_swap a b) as [H|[[e He] _]]; [exact H|congruence].
Qed.

End Symmetry.

(** ** [extended] *)

Lemma extended_falsy_tip (w tip pip : value) :
  truthy tip = false → extended w tip pip = Ok false.
Proof. intros H. unfold extended. rewrite H. reflexivity. Qed.

Lemma extended_falsy_pip (w tip pip : value) :
  truthy pip = false → extended w tip pip = Ok false.
Proof. intros H. unfold extended. rewrite H, orb_true_r. reflexivity. Qed.

Lemma extended_truthy (w tip pip : value) :
  truthy tip = true → truthy pip = true →
  extended w tip pip =
    (d_tip ← dist tip w; d_pip ← dist pip w; Ok (d_pip + 0.04 <? d_tip)%float).
Proof. intros Ht Hp. unfold extended. rewrite Ht, Hp. reflexivity. Qed.

Lemma extended_returns (w tip pip : value) :
  readable w = true → readable tip = true → readable pip = true →
  returns (extended w tip pip).
Proof.
  intros Hw Ht Hp. unfold extended.
  destruct (negb (truthy tip) || negb (truthy pip)); [eexists; reflexivity|].
  destruct (dist_returns tip w Ht Hw) as [dt ->].
  destruct (dist_returns pip w Hp Hw) as [dp ->].
  eexists; reflexivity.
Qed.

(** C7: a finger is extended exactly when its tip and its pip are both
    there (truthy) and the tip is farther from the wrist than the pip by
    strictly more than 0.04; a tip at exactly the pip's distance plus 0.04
    is not extended. *)
Theorem extended_strict (w tip pip : value) :
  (extended w tip pip = Ok true ↔
     truthy tip = true ∧ truthy pip = true ∧
     ∃ d_tip d_pip, dist tip w = Ok d_tip ∧ dist pip w = Ok d_pip ∧
                    (d_pip + 0.04 <? d_tip)%float = true)
  ∧ (∀ d_tip d_pip, dist tip w = Ok d_tip → dist pip w = Ok d_pip →
       d_tip = (d_pip + 0.04)%float → extended w tip pip = Ok false).
Proof.
  split.
  - split.
    + intros H. destruct (truthy tip) eqn:Ht.
      2:{ rewrite extended_falsy_tip in H by done. discriminate. }
      destruct (truthy pip) eqn:Hp.
      2:{ rewrite extended_falsy_pip in H by done. discriminate. }
      rewrite extended_truthy in H by done.
      apply bind_Ok in H as (dt & Hdt & H). apply bind_Ok in H as (dp & Hdp & H).
      injection H as H. eauto 10.
    + intros (Ht & Hp & dt & dp & Hdt & Hdp & Hlt).
      rewrite extended_truthy by done. rewrite Hdt, Hdp. simpl. by rewrite Hlt.
  - intros dt dp Hdt Hdp ->. unfold extended.
    destruct (negb (truthy tip) || negb (truthy pip)); [reflexivity|].
    rewrite Hdt, Hdp. simpl. by rewrite ltb_irrefl.
Qed.

(** ** The indexing loop and [g] *)

Lemma index_step_dict (m : gmap string value) (d : list (string * value)) :
  index_step m (VDict d) =
    let name := dict_get d "name" VNone in
    if truthy name then
      if hashable name then Ok (store name (VDict d) m) else Raise TypeError
    else Ok m.
Proof. reflexivity. Qed.

Lemma index_step_named (m : gmap string value) (lm : value) (n : string) :
  carries_name lm n → n ≠ "" → index_step m lm = Ok (<[n:=lm]> m).
Proof.
  unfold carries_name. intros Hn Hne. destruct lm; try discriminate.
  injection Hn as Hn. rewrite index_step_dict. cbv zeta. rewrite Hn. simpl.
  destruct (String.eqb_spec n ""); [contradiction|reflexivity].
Qed.

Lemma index_step_other (m m' : gmap string value) (lm : value) (n : string) :
  index_step m lm = Ok m' → ¬ carries_name lm n → m' !! n = m !! n.
Proof.
  unfold carries_name. intros Hs Hn. destruct lm; try discriminate.
  rewrite index_step_dict in Hs. cbv zeta in Hs. simpl in Hn.
  destruct (truthy (dict_get d "name" VNone)); [|by injection Hs as <-].
  destruct (hashable (dict_get d "name" VNone)); [|discriminate].
  injection Hs as <-. unfold store.
  destruct (dict_get d "name" VNone) as [| | | |s| | |]; try reflexivity.
  apply lookup_insert_ne. intros ->. by apply Hn.
Qed.

Lemma index_loop_other (l : list value) (m m' : gmap string value) (n : string) :
  index_loop m l = Ok m' → Forall (λ lm, ¬ carries_name lm n) l →
  m' !! n = m !! n.
Proof.
  revert m. induction l as [|lm l IH]; intros m Hl Hall; simpl in Hl.
  - by injection Hl as <-.
  - apply bind_Ok in Hl as (m1 & Hstep & Hl).
    inversion Hall as [|? ? Hlm Hrest]; subst.
    rewrite (IH m1 Hl Hrest). by eapply index_step_other.
Qed.

Lemma index_loop_app (l1 l2 : list value) (m : gmap string value) :
  index_loop m (l1 ++ l2) = (m1 ← index_loop m l1; index_loop m1 l2).
Proof.
  revert m. induction l1 as [|lm l1 IH]; intros m; simpl; [reflexivity|].
  destruct (index_step m lm) as [m1|e]; simpl; [apply IH|reflexivity].
Qed.

Lemma index_loop_last_wins (l1 l2 : list value) (lm : value)
    (m m' : gmap string value) (n : string) :
  index_loop m (l1 ++ lm :: l2) = Ok m' →
  carries_name lm n → n ≠ "" →
  Forall (λ lm', ¬ carries_name lm' n) l2 →
  m' !! n = Some lm.
Proof.
  intros Hl Hn Hne Hrest. rewrite index_loop_app in Hl.
  apply bind_Ok in Hl as (m1 & _ & Hl). simpl in Hl.
  rewrite (index_step_named m1 lm n Hn Hne) in Hl. simpl in Hl.
  rewrite (index_loop_other l2 _ m' n Hl Hrest). apply lookup_insert_eq.
Qed.

Lemma index_step_returns (m : gmap string value) (lm : value) :
  nameable lm = true → returns (index_step m lm).
Proof.
  destruct lm; try discriminate. simpl. rewrite index_step_dict. cbv zeta.
  destruct (truthy (dict_get d "name" VNone)); simpl;
    [intros ->|intros _]; eexists; reflexivity.
Qed.

Lemma index_loop_returns (l : list value) (m : gmap string value) :
  Forall (λ lm, nameable lm = true) l → returns (index_loop m l).
Proof.
  revert m. induction l as [|lm l IH]; intros m Hall; simpl.
  - eexists; reflexivity.
  - inversion Hall as [|? ? Hlm Hrest]; subst.
    destruct (index_step_returns m lm Hlm) as [m1 ->]. simpl. by apply IH.
Qed.

(** Whatever the loop stores is an item of the list. *)
Lemma index_step_values (P : value → Prop) (m m' : gmap string value) (lm : value) :
  index_step m lm = Ok m' → map_Forall (λ _, P) m → P lm → map_Forall (λ _, P) m'.
Proof.
  intros Hs Hm Hlm. destruct lm; try discriminate.
  rewrite index_step_dict in Hs. cbv zeta in Hs.
  destruct (truthy (dict_get d "name" VNone)); [|by injection Hs as <-].
  destruct (hashable (dict_get d "name" VNone)); [|discriminate].
  injection Hs as <-. unfold store.
  destruct (dict_get d "name" VNone); try exact Hm.
  by apply map_Forall_insert_2.
Qed.

Lemma index_loop_values (P : value → Prop) (l : list value) (m m' : gmap string value) :
  index_loop m l = Ok m' → map_Forall (λ _, P) m → Forall P l →
  map_Forall (λ _, P) m'.
Proof.
  revert m. induction l as [|lm l IH]; intros m Hl Hm Hall; simpl in Hl.
  - by injection Hl as <-.
  - apply bind_Ok in Hl as (m1 & Hstep & Hl).
    inversion Hall as [|? ? Hlm Hrest]; subst.
    eapply IH; eauto using index_step_values.
Qed.

Lemma g_values (P : value → Prop) (by_name : gmap string value) (l : list value)
    (n : string) (idx : nat) :
  map_Forall (λ _, P) by_name → Forall P l → P VNone → P (g by_name l n idx).
Proof.
  intros Hm Hl Hnone. unfold g.
  destruct (by_name !! n) as [lm|] eqn:Hn; [by eapply Hm|].
  destruct (l !! idx) as [lm|] eqn:Hi; [|exact Hnone].
  eapply Forall_lookup_1; eauto.
Qed.

(** C9: resolution by name does not look at positions and the last
    landmark with a name wins.  In a frame the loop accepts, if [lm]
    carries the (non-empty) name [n] and no later landmark does, then [g]
    answers [lm] for [n], whatever the fallback index and whatever comes
    before [lm], other landmarks named [n] included. *)
Theorem name_last_wins (l1 l2 : list value) (lm : value)
    (by_name : gmap string value) (n : string) (idx : nat) :
  index_by_name (l1 ++ lm :: l2) = Ok by_name →
  carries_name lm n → n ≠ "" →
  Forall (λ lm', ¬ carries_name lm' n) l2 →
  g by_name (l1 ++ lm :: l2) n idx = lm.
Proof.
  intros Hl Hn Hne Hrest. unfold g.
  by rewrite (index_loop_last_wins l1 l2 lm ∅ by_name n Hl Hn Hne Hrest).
Qed.

(** ** The rule table *)

Ltac finger_cases f := destruct f as [[] [] [] [] []].

(** Every rule answers with the five flags and one more entry. *)
Lemma sign_rules_debug (f : fingers) (tt it : value) (pd : float) :
  ∃ label conf extra,
    sign_rules f tt it pd = (label, conf, fingers_dict f ++ [extra]) ∧
    ((∃ code, code ∈ reason_codes ∧ extra = ("reason", VStr code)) ∨
     (label = "Pinch" ∧ extra = ("pinch_distance", VFloat pd))).
Proof.
  unfold sign_rules, with_reason, reason_codes.
  finger_cases f; cbn [andb negb count Nat.b2n Nat.add Nat.eqb thumb index middle ring pinky];
    destruct (truthy tt && truthy it && (pd <? 0.06)%float);
    do 3 eexists; (split; [reflexivity|]);
    first [ right; split; reflexivity
          | left; eexists; split; [|reflexivity]; set_solver ].
Qed.

(** With the pinch test passed, only the first three rules can answer
    before the pinch rule. *)
Lemma sign_rules_pinch (f : fingers) (tt it : value) (pd : float) :
  pinch_test tt it pd = true →
  sign_rules f tt it pd =
    if pinky_only f then ("Pinky", 0.88%float, with_reason f "TOILET")
    else if middle_only f then ("Middle", 0.88%float, with_reason f "ANGRY")
    else if ring_middle_pinky f then
      ("Ring Pinky Middle", 0.90%float, with_reason f "AWESOME")
    else ("Pinch", 0.86%float, fingers_dict f ++ [("pinch_distance", VFloat pd)]).
Proof.
  unfold pinch_test. intros H. unfold sign_rules, pinky_only, middle_only, ring_middle_pinky.
  finger_cases f; cbn [andb negb thumb index middle ring pinky]; rewrite ?H; reflexivity.
Qed.

Lemma sign_rules_thumb (tt it : value) (pd : float) :
  pinch_test tt it pd = false →
  sign_rules (Fingers true false false false false) tt it pd =
    ("Thumbs Up", 0.90%float,
     with_reason (Fingers true false false false false) "THUMBS_UP").
Proof.
  unfold pinch_test. intros H. unfold sign_rules.
  cbn [andb negb]. rewrite H. reflexivity.
Qed.

(** ** [classify_sign] *)

Lemma classify_sign_short (l : list value) :
  (length l < 21)%nat → classify_sign (VList l) = Ok not_enough_landmarks.
Proof.
  intros H. simpl. by destruct (Nat.ltb_spec (length l) 21); [|lia].
Qed.

Lemma classify_sign_long (l : list value) :
  (21 ≤ length l)%nat → classify_sign (VList l) = classify_list l.
Proof.
  intros H. simpl. by destruct (Nat.ltb_spec (length l) 21); [lia|].
Qed.

Lemma classify_sign_not_frame (v : value) :
  ¬ (∃ l, v = VList l ∧ (21 ≤ length l)%nat) →
  classify_sign v = Ok not_enough_landmarks.
Proof.
  intros H. destruct v; try reflexivity.
  apply classify_sign_short. destruct (Nat.lt_ge_cases (length l) 21); [done|].
  exfalso. apply H. eauto.
Qed.

(** An argument is a list of 21 items or more, or it is not. *)
Lemma classic_frame (v : value) :
  (∃ l, v = VList l ∧ (21 ≤ length l)%nat) ∨
  ¬ (∃ l, v = VList l ∧ (21 ≤ length l)%nat).
Proof.
  destruct v; try by (right; intros (l' & [=] & _)).
  destruct (Nat.lt_ge_cases (length l) 21) as [H|H].
  - right. intros (l' & [= <-] & H'). lia.
  - left. eauto.
Qed.

(** Past both early exits the answer is the rule table's. *)
Lemma classify_sign_rules (l : list value) (f : fingers) (tt it : value) (pd : float) :
  rule_table_input l f tt it pd →
  classify_sign (VList l) = Ok (sign_rules f tt it pd).
Proof.
  intros (Hlen & by_name & Hidx & Hw & Hf & -> & -> & Hd).
  rewrite classify_sign_long by done. unfold classify_list.
  rewrite Hidx, bind_Ok_l. cbv zeta. rewrite Hw. cbn [negb].
  by rewrite Hf, bind_Ok_l, Hd, bind_Ok_l.
Qed.

(** The three ways [classify_sign] returns on a frame. *)
Lemma classify_list_inv (l : list value) (a : answer) :
  (21 ≤ length l)%nat → classify_list l = Ok a →
  a = no_wrist ∨ ∃ f tt it pd, rule_table_input l f tt it pd ∧ a = sign_rules f tt it pd.
Proof.
  intros Hlen H. unfold classify_list in H.
  apply bind_Ok in H as (by_name & Hidx & H). cbv zeta in H.
  destruct (truthy (wrist (resolve by_name l))) eqn:Hw; cbn [negb] in H.
  2:{ left. by injection H as <-. }
  apply bind_Ok in H as (f & Hf & H). apply bind_Ok in H as (pd & Hd & H).
  injection H as <-. right.
  exists f, (thumb_tip (resolve by_name l)), (index_tip (resolve by_name l)), pd.
  split; [|reflexivity].
  split; [done|]. exists by_name. auto 10.
Qed.

Lemma sign_rules_not_early (f : fingers) (tt it : value) (pd : float) :
  sign_rules f tt it pd ≠ not_enough_landmarks.
Proof.
  destruct (sign_rules_debug f tt it pd) as (label & conf & extra & -> & _).
  intros [=].
Qed.

(** C2 (as the code has it): [classify_sign] returns the
    NOT_ENOUGH_LANDMARKS answer exactly when its argument is not a list
    of 21 or more items; it returns it before looking at any item. *)
Theorem early_exit_iff_not_long_list (v : value) :
  classify_sign v = Ok not_enough_landmarks ↔
  ¬ (∃ l, v = VList l ∧ (21 ≤ length l)%nat).
Proof.
  split; [|apply classify_sign_not_frame].
  intros H (l & -> & Hlen). rewrite classify_sign_long in H by done.
  destruct (classify_list_inv l _ Hlen H) as [Ha|(f & tt & it & pd & _ & Ha)].
  - discriminate Ha.
  - by eapply sign_rules_not_early.
Qed.

(** C3: the pinch rule sits between rule 3 and rule 5.  On a frame that
    enters the rule table with both tips there and a pinch distance below
    0.06, a finger pattern of rules 1 to 3 gets that rule's label, and every
    other pattern gets "Pinch", a stretched index finger (Point, Peace,
    Rock) included. *)
Theorem pinch_priority (l : list value) (f : fingers) (tt it : value) (pd : float) :
  rule_table_input l f tt it pd → pinch_test tt it pd = true →
  ∃ a, classify_sign (VList l) = Ok a ∧
    (pinky_only f = true → label_of a = "Pinky") ∧
    (middle_only f = true → label_of a = "Middle") ∧
    (ring_middle_pinky f = true → label_of a = "Ring Pinky Middle") ∧
    (pinky_only f = false → middle_only f = false → ring_middle_pinky f = false →
     a = ("Pinch", 0.86%float, fingers_dict f ++ [("pinch_distance", VFloat pd)])) ∧
    (index f = true → label_of a = "Pinch").
Proof.
  intros Hin Hpinch. eexists. split; [by apply classify_sign_rules|].
  rewrite sign_rules_pinch by done.
  unfold pinky_only, middle_only, ring_middle_pinky.
  finger_cases f; cbn [andb negb thumb index middle ring pinky];
    repeat split; intros; try reflexivity; discriminate.
Qed.

(** C4 (as the code has it): on a frame that enters the rule table with
    only the thumb extended, and on which the pinch test fails (a tip
    missing, or the pinch distance not below 0.06), the answer is
    "Thumbs Up" with confidence 0.90 and reason THUMBS_UP, and exactly one
    finger counts as extended. *)
Theorem thumbs_up_unless_pinch (l : list value) (f : fingers) (tt it : value) (pd : float) :
  rule_table_input l f tt it pd →
  thumb f = true → index f = false → middle f = false → ring f = false →
  pinky f = false →
  pinch_test tt it pd = false →
  classify_sign (VList l) = Ok ("Thumbs Up", 0.90%float, with_reason f "THUMBS_UP")
  ∧ count f = 1%nat.
Proof.
  intros Hin Ht Hi Hm Hr Hp Hpinch. rewrite (classify_sign_rules _ _ _ _ _ Hin).
  destruct f as [t i m r p]. cbn [thumb index middle ring pinky] in *. subst.
  by rewrite sign_rules_thumb.
Qed.

(** The entry after the five flags is the pinch distance on the pinch
    rule and a reason code on every other rule. *)
Lemma sign_rules_payload (f : fingers) (tt it : value) (pd : float) :
  ∃ label conf extra,
    sign_rules f tt it pd = (label, conf, fingers_dict f ++ [extra]) ∧
    ((label ≠ "Pinch" ∧ ∃ code, code ∈ reason_codes ∧ extra = ("reason", VStr code)) ∨
     (label = "Pinch" ∧ extra = ("pinch_distance", VFloat pd))).
Proof.
  unfold sign_rules, with_reason, reason_codes.
  finger_cases f; cbn [andb negb count Nat.b2n Nat.add Nat.eqb thumb index middle ring pinky];
    destruct (truthy tt && truthy it && (pd <? 0.06)%float);
    do 3 eexists; (split; [reflexivity|]);
    first [ right; split; reflexivity
          | left; split; [discriminate|]; eexists; split; [|reflexivity]; set_solver ].
Qed.

(** C5 (as the code has it): on every frame that enters the rule table
    the debug dict is the five finger flags followed by one more entry,
    nothing else: on the pinch rule that entry is the pinch distance, a
    float, and there is no reason code; on every other rule it is a
    reason code. *)
Theorem rule_debug_payload (l : list value) (f : fingers) (tt it : value) (pd : float) :
  rule_table_input l f tt it pd →
  ∃ label conf extra,
    classify_sign (VList l) = Ok (label, conf, fingers_dict f ++ [extra]) ∧
    ((label ≠ "Pinch" ∧ ∃ code, code ∈ reason_codes ∧ extra = ("reason", VStr code)) ∨
     (label = "Pinch" ∧ extra = ("pinch_distance", VFloat pd))).
Proof.
  intros Hin. rewrite (classify_sign_rules _ _ _ _ _ Hin).
  destruct (sign_rules_payload f tt it pd) as (label & conf & extra & -> & H).
  eauto 10.
Qed.

Lemma classify_list_no_wrist (l : list value) (by_name : gmap string value) :
  index_by_name l = Ok by_name → truthy (g by_name l "wrist" 0) = false →
  classify_list l = Ok no_wrist.
Proof.
  intros Hidx Hw. unfold classify_list. rewrite Hidx, bind_Ok_l. cbv zeta.
  change (wrist (resolve by_name l)) with (g by_name l "wrist" 0).
  by rewrite Hw.
Qed.

(** C6 (as the code has it): on a list of records the indexing loop
    accepts, with no landmark named wrist and nothing (an empty record) in
    slot 0, the answer is NO_WRIST with confidence 0.1 when the list has 21
    items or more, and NOT_ENOUGH_LANDMARKS when it has fewer: the length
    check comes first. *)
Theorem no_wrist_exit (l : list value) :
  Forall (λ lm, nameable lm = true) l →
  Forall (λ lm, ¬ carries_name lm "wrist") l →
  (∀ lm0, l !! 0%nat = Some lm0 → truthy lm0 = false) →
  ((21 ≤ length l)%nat → classify_sign (VList l) = Ok no_wrist) ∧
  ((length l < 21)%nat → classify_sign (VList l) = Ok not_enough_landmarks).
Proof.
  intros Hrec Hname Hslot. split; [|apply classify_sign_short].
  intros Hlen. rewrite classify_sign_long by done.
  destruct (index_loop_returns l ∅ Hrec) as [by_name Hidx].
  apply (classify_list_no_wrist l by_name Hidx). unfold g.
  rewrite (index_loop_other l ∅ by_name "wrist" Hidx Hname), lookup_empty.
  destruct (l !! 0%nat) as [lm0|] eqn:H0; [by apply Hslot|reflexivity].
Qed.

(** C10 (as the code has it): [dist] and [extended] handle every falsy
    landmark as they handle None: [dist] with it on either side is 0.0, and
    a finger with it as tip or as pip is not extended.  The wrist check is
    reached by one falsy landmark only, the empty record: on a list of 21
    items or more with no landmark named wrist and a falsy item in slot 0,
    the answer is NO_WRIST when the item is a dict and the loop accepts the
    list, and the call raises AttributeError when the item is not a dict
    (0, an empty string, false, an empty list, None). *)
Theorem falsy_as_absent (a : value) :
  truthy a = false →
  (∀ b, dist a b = Ok 0%float ∧ dist b a = Ok 0%float ∧
        dist a b = dist VNone b ∧ dist b a = dist b VNone) ∧
  (∀ w other, extended w a other = Ok false ∧ extended w other a = Ok false ∧
              extended w a other = extended w VNone other ∧
              extended w other a = extended w other VNone) ∧
  (∀ l, (21 ≤ length l)%nat → l !! 0%nat = Some a →
     Forall (λ lm, ¬ carries_name lm "wrist") l →
     (is_dict a = true → Forall (λ lm, nameable lm = true) l →
      classify_sign (VList l) = Ok no_wrist) ∧
     (is_dict a = false → classify_sign (VList l) = Raise AttributeError)).
Proof.
  intros Ha. split; [|split].
  - intros b. rewrite (dist_falsy_l a b), (dist_falsy_r b a) by done.
    by rewrite (dist_falsy_l VNone b), (dist_falsy_r b VNone).
  - intros w other.
    rewrite (extended_falsy_tip w a other), (extended_falsy_pip w other a) by done.
    by rewrite (extended_falsy_tip w VNone other), (extended_falsy_pip w other VNone).
  - intros l Hlen Hslot Hname. rewrite classify_sign_long by done. split.
    + intros _ Hrec. destruct (index_loop_returns l ∅ Hrec) as [by_name Hidx].
      apply (classify_list_no_wrist l by_name Hidx). unfold g.
      by rewrite (index_loop_other l ∅ by_name "wrist" Hidx Hname), lookup_empty, Hslot.
    + intros Hd. destruct l as [|lm l']; [discriminate|].
      injection Hslot as ->. unfold classify_list, index_by_name.
      cbn [index_loop]. by destruct a.
Qed.

(** ** Frames of landmark records *)

Lemma landmark_record_nameable (lm : value) :
  landmark_record lm = true → nameable lm = true.
Proof. unfold landmark_record. by intros [[H _]%andb_true_iff _]%andb_true_iff. Qed.

Lemma landmark_record_readable (lm : value) :
  landmark_record lm = true → readable lm = true.
Proof.
  unfold landmark_record, readable.
  intros [[_ Hx]%andb_true_iff Hy]%andb_true_iff. rewrite Hx, Hy.
  apply orb_true_r.
Qed.

Lemma finger_states_returns (r : roles) :
  readable (wrist r) = true →
  readable (thumb_tip r) = true → readable (thumb_ip r) = true →
  readable (index_tip r) = true → readable (index_pip r) = true →
  readable (middle_tip r) = true → readable (middle_pip r) = true →
  readable (ring_tip r) = true → readable (ring_pip r) = true →
  readable (pinky_tip r) = true → readable (pinky_pip r) = true →
  returns (finger_states r).
Proof.
  intros Hw Ht1 Ht2 Hi1 Hi2 Hm1 Hm2 Hr1 Hr2 Hp1 Hp2. unfold finger_states.
  destruct (extended_returns _ _ _ Hw Ht1 Ht2) as [t ->].
  destruct (extended_returns _ _ _ Hw Hi1 Hi2) as [i ->].
  destruct (extended_returns _ _ _ Hw Hm1 Hm2) as [m ->].
  destruct (extended_returns _ _ _ Hw Hr1 Hr2) as [r' ->].
  destruct (extended_returns _ _ _ Hw Hp1 Hp2) as [p' ->].
  eexists; reflexivity.
Qed.

(** On a frame of landmark records the classifier returns. *)
Lemma classify_list_returns (l : list value) :
  Forall (λ lm, landmark_record lm = true) l → returns (classify_list l).
Proof.
  intros Hrec.
  assert (Hname : Forall (λ lm, nameable lm = true) l)
    by (eapply Forall_impl; [exact Hrec|apply landmark_record_nameable]).
  assert (Hread : Forall (λ lm, readable lm = true) l)
    by (eapply Forall_impl; [exact Hrec|apply landmark_record_readable]).
  destruct (index_loop_returns l ∅ Hname) as [by_name Hidx].
  assert (Hvals : map_Forall (λ _ lm, readable lm = true) by_name).
  { apply (index_loop_values (λ lm, readable lm = true) l ∅ by_name Hidx);
      [apply map_Forall_empty|exact Hread]. }
  assert (Hg : ∀ n idx, readable (g by_name l n idx) = true).
  { intros n idx. by apply (g_values (λ lm, readable lm = true)). }
  unfold classify_list. change (index_loop ∅ l) with (index_by_name l) in Hidx.
  rewrite Hidx, bind_Ok_l. cbv zeta.
  destruct (negb (truthy (wrist (resolve by_name l)))); [eexists; reflexivity|].
  destruct (finger_states_returns (resolve by_name l)) as [f ->]; try apply Hg.
  rewrite bind_Ok_l.
  destruct (dist_returns (thumb_tip (resolve by_name l))
              (index_tip (resolve by_name l))) as [pd ->]; try apply Hg.
  eexists; reflexivity.
Qed.

(** Every answer carries a code: an error, a reason, or the pinch
    distance. *)
Lemma classify_sign_coded (v : value) (a : answer) :
  classify_sign v = Ok a →
  dict_has (debug_of a) "error" || dict_has (debug_of a) "reason"
  || dict_has (debug_of a) "pinch_distance" = true.
Proof.
  intros H.
  destruct (classic_frame v) as [(l & -> & Hlen)|Hv].
  - rewrite classify_sign_long in H by done.
    destruct (classify_list_inv l a Hlen H) as [->|(f & tt & it & pd & _ & ->)];
      [reflexivity|].
    destruct (sign_rules_debug f tt it pd)
      as (label & conf & extra & -> & [(code & _ & ->)|[_ ->]]); reflexivity.
  - rewrite classify_sign_not_frame in H by done. by injection H as <-.
Qed.

(** C1 (as the code has it): [classify_sign] returns a triple, and raises
    nothing, on every argument that is not a list, on every list of fewer
    than 21 items whatever the items are, and on every longer list of
    landmark records.  What is not a list of 21 items gets the
    NOT_ENOUGH_LANDMARKS answer, and every answer carries an error code, a
    reason code or the pinch distance in its debug dict. *)
Theorem classify_sign_returns_on_records (v : value) :
  (∀ l, v = VList l → (21 ≤ length l)%nat →
        Forall (λ lm, landmark_record lm = true) l) →
  ∃ a, classify_sign v = Ok a ∧
    (¬ (∃ l, v = VList l ∧ (21 ≤ length l)%nat) → a = not_enough_landmarks) ∧
    dict_has (debug_of a) "error" || dict_has (debug_of a) "reason"
    || dict_has (debug_of a) "pinch_distance" = true.
Proof.
  intros Hrec.
  assert (Hret : returns (classify_sign v)).
  { destruct (classic_frame v) as [(l & -> & Hlen)|Hv].
    - rewrite classify_sign_long by done. apply classify_list_returns. eauto.
    - rewrite classify_sign_not_frame by done. eexists; reflexivity. }
  destruct Hret as [a Ha]. exists a. split; [done|]. split.
  - intros Hv. rewrite classify_sign_not_frame in Ha by done. by injection Ha as <-.
  - by eapply classify_sign_coded.
Qed.

(** ** More on the rule table *)

(** A rule-table goal: split the five flags, run the rules that the flags
    decide, and settle the pinch test from [H]. *)
Ltac rule_cases f H :=
  unfold label_of, sign_rules, pinch_test, pinky_only, middle_only,
    ring_middle_pinky in *;
  finger_cases f;
  cbn [andb negb orb count Nat.b2n Nat.add Nat.eqb thumb index middle ring pinky
       fst snd] in *;
  rewrite ?H; cbn [fst snd].

Ltac settle := repeat split; intros; try reflexivity; try discriminate; try lia.

(** X1: on the rule table the answer is "Pinch" exactly when the pinch
    test passes and none of the first three finger patterns matches. *)
Theorem pinch_iff (l : list value) (f : fingers) (tt it : value) (pd : float) :
  rule_table_input l f tt it pd →
  ∃ a, classify_sign (VList l) = Ok a ∧
    (label_of a = "Pinch" ↔
       pinch_test tt it pd = true ∧ pinky_only f = false ∧
       middle_only f = false ∧ ring_middle_pinky f = false).
Proof.
  intros Hin. eexists. split; [by apply classify_sign_rules|].
  destruct (pinch_test tt it pd) eqn:Hp; rule_cases f Hp; settle;
    try tauto; try (destruct_and?; discriminate).
Qed.

(** X2: with the pinch test failed, the count alone decides four labels:
    "Fist" is the answer exactly when no finger is extended, "Open Hand"
    exactly when all five are, "Four Fingers" exactly when four are; and
    "Three Fingers" exactly when three are, other than ring+middle+pinky
    and other than thumb+index with the ring retracted. *)
Theorem count_rules (l : list value) (f : fingers) (tt it : value) (pd : float) :
  rule_table_input l f tt it pd → pinch_test tt it pd = false →
  ∃ a, classify_sign (VList l) = Ok a ∧
    (label_of a = "Fist" ↔ count f = 0%nat) ∧
    (label_of a = "Open Hand" ↔ count f = 5%nat) ∧
    (label_of a = "Four Fingers" ↔ count f = 4%nat) ∧
    (label_of a = "Three Fingers" ↔
       count f = 3%nat ∧ ring_middle_pinky f = false ∧
       (thumb f && index f && negb (ring f)) = false).
Proof.
  intros Hin Hp. eexists. split; [by apply classify_sign_rules|].
  rule_cases f Hp; settle; try (destruct_and?; discriminate).
Qed.

(** X3: the thumb plays no part in "Point", "Peace" and "Rock".  With the
    pinch test failed, the index extended, the ring retracted and middle
    and pinky not both extended, the answer is "Peace" when the middle is
    extended, "Rock" when the pinky is, "Point" otherwise, whatever the
    thumb does. *)
Theorem index_rules_ignore_thumb (l : list value) (f : fingers) (tt it : value)
    (pd : float) :
  rule_table_input l f tt it pd → pinch_test tt it pd = false →
  index f = true → ring f = false → (middle f && pinky f) = false →
  ∃ conf debug,
    classify_sign (VList l)
    = Ok (if middle f then "Peace" else if pinky f then "Rock" else "Point",
          conf, debug).
Proof.
  intros Hin Hp Hi Hr Hmp. rewrite (classify_sign_rules _ _ _ _ _ Hin).
  rule_cases f Hp; try discriminate; do 2 eexists; reflexivity.
Qed.

(** X4: on the rule table the answer is "Thumbs Up" exactly when the
    pinch test fails and the thumb alone is extended. *)
Theorem thumbs_up_iff (l : list value) (f : fingers) (tt it : value) (pd : float) :
  rule_table_input l f tt it pd →
  ∃ a, classify_sign (VList l) = Ok a ∧
    (label_of a = "Thumbs Up" ↔
       pinch_test tt it pd = false ∧ f = Fingers true false false false false).
Proof.
  intros Hin. eexists. split; [by apply classify_sign_rules|].
  destruct (pinch_test tt it pd) eqn:Hp; rule_cases f Hp; settle;
    try (destruct_and?; discriminate).
Qed.

(** X5: the default rule.  With the pinch test failed, the rule table
    answers "Unknown" exactly for the ring finger alone and for two
    extended fingers other than the index with the ring retracted. *)
Theorem default_rule_iff (l : list value) (f : fingers) (tt it : value) (pd : float) :
  rule_table_input l f tt it pd → pinch_test tt it pd = false →
  ∃ a, classify_sign (VList l) = Ok a ∧
    (label_of a = "Unknown" ↔
       f = Fingers false false false true false ∨
       (count f = 2%nat ∧ (index f && negb (ring f)) = false)).
Proof.
  intros Hin Hp. eexists. split; [by apply classify_sign_rules|].
  rule_cases f Hp; settle; try (left; reflexivity); try (right; done);
    try (destruct_or?; destruct_and?; first [discriminate|lia]).
Qed.

Lemma sign_rules_range (f : fingers) (tt it : value) (pd : float) :
  label_of (sign_rules f tt it pd) ∈ labels ∧
  (0.1 <=? confidence_of (sign_rules f tt it pd))%float
  && (confidence_of (sign_rules f tt it pd) <=? 0.92)%float = true.
Proof.
  unfold label_of, confidence_of, sign_rules, labels.
  finger_cases f;
    cbn [andb negb count Nat.b2n Nat.add Nat.eqb thumb index middle ring pinky];
    destruct (truthy tt && truthy it && (pd <? 0.06)%float);
    (split; [cbn [fst snd]; set_solver|vm_compute; reflexivity]).
Qed.

(** X6: every answer of [classify_sign] has one of the thirteen labels
    and a confidence between 0.1 and 0.92. *)
Theorem answer_range (v : value) (a : answer) :
  classify_sign v = Ok a →
  label_of a ∈ labels ∧
  (0.1 <=? confidence_of a)%float && (confidence_of a <=? 0.92)%float = true.
Proof.
  intros H. destruct (classic_frame v) as [(l & -> & Hlen)|Hv].
  - rewrite classify_sign_long in H by done.
    destruct (classify_list_inv l a Hlen H) as [->|(f & tt & it & pd & _ & ->)].
    + split; [unfold labels, label_of; cbn; set_solver|vm_compute; reflexivity].
    + apply sign_rules_range.
  - rewrite classify_sign_not_frame in H by done. injection H as <-.
    split; [unfold labels, label_of; cbn; set_solver|vm_compute; reflexivity].
Qed.

(** ** More on the indexing loop *)

Lemma index_step_returns_iff (m : gmap string value) (lm : value) :
  returns (index_step m lm) ↔ nameable lm = true.
Proof.
  split; [|apply index_step_returns].
  intros [m' H]. destruct lm; try discriminate. rewrite index_step_dict in H.
  cbv zeta in H. simpl.
  destruct (truthy (dict_get d "name" VNone)); [|reflexivity].
  by destruct (hashable (dict_get d "name" VNone)).
Qed.

(** What the loop does with an item it rejects. *)
Lemma index_step_raises (m : gmap string value) (lm : value) :
  nameable lm = false →
  index_step m lm = Raise (if is_dict lm then TypeError else AttributeError).
Proof.
  destruct lm; try reflexivity. simpl. rewrite index_step_dict. cbv zeta.
  destruct (truthy (dict_get d "name" VNone)); [|discriminate].
  by destruct (hashable (dict_get d "name" VNone)).
Qed.

(** X7: the indexing loop returns exactly on lists whose items are all
    dicts with a falsy or hashable name. *)
Theorem index_by_name_returns_iff (l : list value) :
  returns (index_by_name l) ↔ Forall (λ lm, nameable lm = true) l.
Proof.
  split; [|apply index_loop_returns].
  unfold index_by_name. generalize (∅ : gmap string value).
  induction l as [|lm l IH]; intros m [m' H]; [constructor|].
  simpl in H. apply bind_Ok in H as (m1 & Hstep & Hl). constructor.
  - apply (index_step_returns_iff m lm). by exists m1.
  - apply (IH m1). by exists m'.
Qed.

(** X8: on a list of 21 items or more, the first item the loop rejects
    ends the call: AttributeError when the item is not a dict, TypeError
    when it is a dict with an unhashable name.  Nothing that follows the
    item, and no coordinate, is looked at. *)
Theorem first_rejected_item_raises (l1 l2 : list value) (lm : value) :
  (21 ≤ length (l1 ++ lm :: l2))%nat →
  Forall (λ lm', nameable lm' = true) l1 → nameable lm = false →
  classify_sign (VList (l1 ++ lm :: l2))
  = Raise (if is_dict lm then TypeError else AttributeError).
Proof.
  intros Hlen Hl1 Hlm. rewrite classify_sign_long by done.
  unfold classify_list, index_by_name. rewrite index_loop_app.
  destruct (index_loop_returns l1 ∅ Hl1) as [m1 ->]. rewrite bind_Ok_l.
  cbn [index_loop]. by rewrite (index_step_raises m1 lm Hlm).
Qed.

(** X9: the positional fallback.  When no landmark carries the name,
    [g] answers the item at the fallback index, and None past the end. *)
Theorem unnamed_role_falls_back (l : list value) (by_name : gmap string value)
    (n : string) (idx : nat) :
  index_by_name l = Ok by_name →
  Forall (λ lm, ¬ carries_name lm n) l →
  g by_name l n idx = default VNone (l !! idx).
Proof.
  intros Hidx Hn. unfold g.
  rewrite (index_loop_other l ∅ by_name n Hidx Hn), lookup_empty.
  by destruct (l !! idx).
Qed.

Lemma index_step_unnamed (m : gmap string value) (lm : value) :
  unnamed lm = true → index_step m lm = Ok m.
Proof.
  destruct lm; try discriminate. simpl. rewrite index_step_dict. cbv zeta.
  by destruct (truthy (dict_get d "name" VNone)).
Qed.

Lemma index_loop_unnamed (l : list value) (m : gmap string value) :
  Forall (λ lm, unnamed lm = true) l → index_loop m l = Ok m.
Proof.
  induction 1 as [|lm l Hlm _ IH]; [reflexivity|].
  simpl. by rewrite (index_step_unnamed m lm Hlm).
Qed.

(** X10: without names only eleven slots count.  Two lists of unnamed
    records, of 21 items or more, that agree on slots 0, 3, 4, 6, 8, 10,
    12, 14, 16, 18 and 20 get the same result from [classify_sign],
    answer or exception; what the other slots hold is never read. *)
Theorem only_role_slots_matter (l l' : list value) :
  Forall (λ lm, unnamed lm = true) l → Forall (λ lm, unnamed lm = true) l' →
  (21 ≤ length l)%nat → (21 ≤ length l')%nat →
  (∀ i, i ∈ role_slots → l !! i = l' !! i) →
  classify_sign (VList l) = classify_sign (VList l').
Proof.
  intros Hl Hl' Hlen Hlen' Hslots. rewrite !classify_sign_long by done.
  unfold classify_list, index_by_name. rewrite !index_loop_unnamed by done.
  rewrite !bind_Ok_l. cbv zeta.
  assert (resolve ∅ l = resolve ∅ l') as ->; [|reflexivity].
  unfold resolve, g. rewrite !lookup_empty.
  by rewrite !Hslots by (unfold role_slots; set_solver).
Qed.

(** Every landmark the loop stores is truthy: it has a name entry. *)
Lemma index_step_truthy (m m' : gmap string value) (lm : value) :
  index_step m lm = Ok m' →
  map_Forall (λ _ v, truthy v = true) m → map_Forall (λ _ v, truthy v = true) m'.
Proof.
  intros Hs Hm. destruct lm; try discriminate.
  rewrite index_step_dict in Hs. cbv zeta in Hs.
  destruct (truthy (dict_get d "name" VNone)) eqn:Hname; [|by injection Hs as <-].
  destruct (hashable (dict_get d "name" VNone)); [|discriminate].
  injection Hs as <-. unfold store.
  destruct (dict_get d "name" VNone) eqn:Hget; try exact Hm.
  apply map_Forall_insert_2; [|exact Hm]. by destruct d.
Qed.

Lemma index_loop_truthy (l : list value) (m m' : gmap string value) :
  index_loop m l = Ok m' →
  map_Forall (λ _ v, truthy v = true) m → map_Forall (λ _ v, truthy v = true) m'.
Proof.
  revert m. induction l as [|lm l IH]; intros m Hl Hm; simpl in Hl.
  - by injection Hl as <-.
  - apply bind_Ok in Hl as (m1 & Hstep & Hl).
    eapply IH; eauto using index_step_truthy.
Qed.

(** A name the loop leaves unbound is carried by no landmark. *)
Lemma index_loop_unbound (l : list value) (m m' : gmap string value) (n : string) :
  index_loop m l = Ok m' → n ≠ "" → m' !! n = None →
  Forall (λ lm, ¬ carries_name lm n) l.
Proof.
  revert m. induction l as [|lm l IH]; intros m Hl Hne Hnone; [constructor|].
  simpl in Hl. apply bind_Ok in Hl as (m1 & Hstep & Hl).
  assert (Hrest : Forall (λ lm, ¬ carries_name lm n) l) by by eapply IH.
  constructor; [|exact Hrest].
  intros Hn. rewrite (index_step_named m lm n Hn Hne) in Hstep.
  injection Hstep as <-.
  rewrite (index_loop_other l _ m' n Hl Hrest), lookup_insert_eq in Hnone.
  discriminate.
Qed.

Lemma sign_rules_not_no_wrist (f : fingers) (tt it : value) (pd : float) :
  sign_rules f tt it pd ≠ no_wrist.
Proof.
  destruct (sign_rules_debug f tt it pd) as (label & conf & extra & -> & _).
  intros [=].
Qed.

(** X11: the NO_WRIST answer is returned exactly for the lists of 21
    items or more that the indexing loop accepts, with no landmark
    named wrist and an empty record in slot 0. *)
Theorem no_wrist_iff (l : list value) :
  classify_sign (VList l) = Ok no_wrist ↔
  (21 ≤ length l)%nat ∧ Forall (λ lm, nameable lm = true) l ∧
  Forall (λ lm, ¬ carries_name lm "wrist") l ∧ l !! 0%nat = Some (VDict []).
Proof.
  split.
  - intros H. destruct (Nat.lt_ge_cases (length l) 21) as [Hlen|Hlen].
    { rewrite classify_sign_short in H by done. discriminate. }
    rewrite classify_sign_long in H by done. unfold classify_list in H.
    apply bind_Ok in H as (by_name & Hidx & H). cbv zeta in H.
    destruct (truthy (wrist (resolve by_name l))) eqn:Hw; cbn [negb] in H.
    { apply bind_Ok in H as (f & _ & H). apply bind_Ok in H as (pd & _ & H).
      injection H as H. by apply sign_rules_not_no_wrist in H. }
    assert (Hrec : Forall (λ lm, nameable lm = true) l).
    { apply index_by_name_returns_iff. by exists by_name. }
    change (wrist (resolve by_name l)) with (g by_name l "wrist" 0) in Hw.
    unfold g in Hw. destruct (by_name !! "wrist") as [lm|] eqn:Hname.
    { pose proof (index_loop_truthy l ∅ by_name Hidx (map_Forall_empty _)) as Ht.
      rewrite (Ht "wrist" lm Hname) in Hw. discriminate. }
    split; [done|]. split; [done|]. split.
    + by apply (index_loop_unbound l ∅ by_name "wrist" Hidx).
    + destruct (l !! 0%nat) as [lm0|] eqn:H0.
      2:{ apply lookup_ge_None in H0. lia. }
      pose proof (Forall_lookup_1 _ _ _ _ Hrec H0) as Hlm0.
      destruct lm0; try discriminate. by destruct d.
  - intros (Hlen & Hrec & Hname & H0). rewrite classify_sign_long by done.
    destruct (index_loop_returns l ∅ Hrec) as [by_name Hidx].
    apply (classify_list_no_wrist l by_name Hidx). unfold g.
    by rewrite (index_loop_other l ∅ by_name "wrist" Hidx Hname), lookup_empty, H0.
Qed.

(** ** More on [dist] *)

Lemma coord_skip (k key : string) (v : value) (d : list (string * value)) :
  k ≠ key → coord (VDict ((k, v) :: d)) key = coord (VDict d) key.
Proof.
  intros Hk. unfold coord. simpl.
  by destruct (String.eqb_spec k key).
Qed.

Lemma truthy_record (d : list (string * value)) : d ≠ [] → truthy (VDict d) = true.
Proof. by destruct d. Qed.

(** X12: [dist] reads x and y only.  An entry under any other key (z,
    name, visibility) added to a non-empty record changes nothing, on
    either side. *)
Theorem dist_reads_x_y_only (k : string) (v : value) (d : list (string * value))
    (b : value) :
  k ≠ "x" → k ≠ "y" → d ≠ [] →
  dist (VDict ((k, v) :: d)) b = dist (VDict d) b ∧
  dist b (VDict ((k, v) :: d)) = dist b (VDict d).
Proof.
  intros Hx Hy Hd. unfold dist.
  rewrite (truthy_record d Hd), (truthy_record ((k, v) :: d)) by done.
  by rewrite !coord_skip.
Qed.

Lemma dict_get_absent (d : list (string * value)) (key : string) (default : value) :
  dict_has d key = false → dict_get d key default = default.
Proof.
  induction d as [|[k v] d IH]; [reflexivity|]. simpl.
  destruct (String.eqb k key); [discriminate|exact IH].
Qed.

(** X13: a missing coordinate counts as 0.0, but only in a record that has
    something in it: giving a non-empty record the coordinate it lacks,
    at 0.0, changes nothing, while the empty record is no point at all
    and measures 0.0 to everything. *)
Theorem missing_coordinate_is_zero (key : string) (d : list (string * value))
    (b : value) :
  key = "x" ∨ key = "y" → dict_has d key = false →
  (d ≠ [] →
   dist (VDict ((key, VFloat 0) :: d)) b = dist (VDict d) b ∧
   dist b (VDict ((key, VFloat 0) :: d)) = dist b (VDict d)) ∧
  dist (VDict []) b = Ok 0%float ∧ dist b (VDict []) = Ok 0%float.
Proof.
  intros Hkey Hno. split.
  2:{ by rewrite (dist_falsy_l (VDict []) b), (dist_falsy_r b (VDict [])). }
  intros Hd.
  assert (Hc : ∀ key', coord (VDict ((key, VFloat 0) :: d)) key'
                       = coord (VDict d) key').
  { intros key'. unfold coord. simpl. destruct (String.eqb_spec key key') as [<-|]; [|done].
    by rewrite dict_get_absent. }
  unfold dist.
  rewrite (truthy_record d Hd), (truthy_record ((key, VFloat 0) :: d)) by done.
  by rewrite !Hc.
Qed.

Lemma dist_truthy_returns (a b : value) :
  truthy a = true → truthy b = true →
  returns (dist a b) ↔ measurable a b = true.
Proof.
  intros Ha Hb. rewrite dist_truthy by done. unfold measurable.
  destruct (coord a "x") as [ax|e1], (coord a "y") as [ay|e2],
    (coord b "x") as [bx|e3], (coord b "y") as [by_|e4]; simpl;
    split; try discriminate; try (intros [d [=]]); try done;
    intros _; eexists; reflexivity.
Qed.

(** X14: when [dist] raises.  It returns exactly when one argument is
    falsy or all four coordinates convert; with both arguments truthy, a
    first argument that is not a dict raises AttributeError. *)
Theorem dist_returns_iff (a b : value) :
  (returns (dist a b) ↔
     truthy a = false ∨ truthy b = false ∨ measurable a b = true) ∧
  (truthy a = true → truthy b = true → is_dict a = false →
   dist a b = Raise AttributeError).
Proof.
  split.
  - destruct (truthy a) eqn:Ha.
    2:{ rewrite dist_falsy_l by done. split; [auto|]. intros _. by eexists. }
    destruct (truthy b) eqn:Hb.
    2:{ rewrite dist_falsy_r by done. split; [auto|]. intros _. by eexists. }
    rewrite <- (dist_truthy_returns a b Ha Hb). split; [auto|].
    by intros [|[|]].
  - intros Ha Hb Hd. rewrite dist_truthy by done.
    by destruct a.
Qed.

(** ** [api_handsign] *)

Lemma dict_get_found (d : list (string * value)) (key : string) (default v : value) :
  dict_get d key default = v → v ≠ default → d ≠ [].
Proof. destruct d; [|done]. simpl. by intros <-. Qed.

(** A dict body with a non-empty list under "landmarks" reaches the core. *)
Lemma route_calls_core (d : list (string * value)) (l : list value) :
  dict_get d "landmarks" VNone = VList l → l ≠ [] →
  api_handsign (VDict d) = (a ← classify_sign (VList l); Ok (success_body a, 200%Z)).
Proof.
  intros Hget Hl. unfold api_handsign.
  rewrite (truthy_record d) by (by eapply dict_get_found).
  cbn [py_get]. rewrite bind_Ok_l, Hget. by destruct l.
Qed.

(** Any other body the route can read is answered without the core. *)
Lemma route_skips_core (body : value) :
  (truthy body = false ∨
   ∃ d, body = VDict d ∧
        ¬ ∃ l, dict_get d "landmarks" VNone = VList l ∧ l ≠ []) →
  api_handsign body = Ok (no_landmarks_body, 200%Z).
Proof.
  unfold api_handsign. intros [Hb|(d & -> & Hno)].
  - by rewrite Hb.
  - assert (py_get (if truthy (VDict d) then VDict d else VDict []) "landmarks" VNone
            = Ok (dict_get d "landmarks" VNone)) as ->.
    { by destruct d. }
    rewrite bind_Ok_l.
    destruct (dict_get d "landmarks" VNone) as [| | | | |l| |] eqn:Hget;
      try reflexivity.
    destruct l; [reflexivity|]. exfalso. apply Hno. by eexists.
Qed.

(** X15: a truthy body that is not a JSON object (an array, a number, a
    string, true) makes the route raise AttributeError. *)
Theorem route_raises_on_non_object (body : value) :
  truthy body = true → is_dict body = false →
  api_handsign body = Raise AttributeError.
Proof. intros Hb Hd. unfold api_handsign. rewrite Hb. by destruct body. Qed.

(** X16: the NO_LANDMARKS response is given exactly when the body is
    missing or falsy, or is an object whose "landmarks" entry is not a
    non-empty list. *)
Theorem no_landmarks_iff (body : value) :
  api_handsign body = Ok (no_landmarks_body, 200%Z) ↔
  truthy body = false ∨
  ∃ d, body = VDict d ∧ ¬ ∃ l, dict_get d "landmarks" VNone = VList l ∧ l ≠ [].
Proof.
  split; [|apply route_skips_core].
  intros H. destruct (truthy body) eqn:Hb; [right|by left].
  destruct (is_dict body) eqn:Hd.
  2:{ rewrite route_raises_on_non_object in H by done. discriminate. }
  destruct body; try discriminate. exists d. split; [reflexivity|].
  intros (l & Hget & Hl). rewrite (route_calls_core d l Hget Hl) in H.
  apply bind_Ok in H as ([[sign conf] debug] & _ & H). discriminate.
Qed.

(** X17: a list of 1 to 20 items passes the route's check and is turned
    down by the core: the response says success with the sign "Unknown",
    confidence 0.2 and the error NOT_ENOUGH_LANDMARKS, whatever the items
    are. *)
Theorem short_list_is_a_success (d : list (string * value)) (l : list value) :
  dict_get d "landmarks" VNone = VList l → l ≠ [] → (length l < 21)%nat →
  api_handsign (VDict d) = Ok (success_body not_enough_landmarks, 200%Z).
Proof.
  intros Hget Hl Hlen. rewrite (route_calls_core d l Hget Hl).
  by rewrite classify_sign_short.
Qed.

(** X18: the route has no handler of its own.  On an object with a
    non-empty list of landmarks it raises what [classify_sign] raises and
    otherwise wraps its answer, with status 200. *)
Theorem route_wraps_core (d : list (string * value)) (l : list value) :
  dict_get d "landmarks" VNone = VList l → l ≠ [] →
  api_handsign (VDict d) =
    match classify_sign (VList l) with
    | Ok a => Ok (success_body a, 200%Z)
    | Raise e => Raise e
    end.
Proof. intros Hget Hl. by rewrite (route_calls_core d l Hget Hl). Qed.

(** X19: every response has status 200, and it is either the NO_LANDMARKS
    dict or the success dict around an answer the core gave for a
    non-empty list. *)
Theorem response_shape (body resp : value) (status : Z) :
  api_handsign body = Ok (resp, status) →
  status = 200%Z ∧
  (resp = no_landmarks_body ∨
   ∃ l a, l ≠ [] ∧ classify_sign (VList l) = Ok a ∧ resp = success_body a).
Proof.
  intros H. destruct (truthy body) eqn:Hb.
  2:{ rewrite route_skips_core in H by auto. injection H as <- <-. auto. }
  destruct (is_dict body) eqn:Hd.
  2:{ rewrite route_raises_on_non_object in H by done. discriminate. }
  destruct body; try discriminate.
  destruct (dict_get d "landmarks" VNone) as [| | | | |l| |] eqn:Hget.
  6:{ destruct l as [|lm l].
      - rewrite route_skips_core in H.
        + injection H as <- <-. auto.
        + right. exists d. split; [done|]. intros (l' & Hget' & Hl').
          rewrite Hget in Hget'. by injection Hget' as <-.
      - rewrite (route_calls_core d (lm :: l) Hget) in H by done.
        apply bind_Ok in H as (a & Ha & H). injection H as <- <-.
        split; [done|]. right. by exists (lm :: l), a. }
  all: rewrite route_skips_core in H;
    [injection H as <- <-; auto
    |right; exists d; split; [done|]; intros (l' & Hget' & _); congruence].
Qed.

(** X20: the route answers every request whose body is missing, or is an
    object whose landmarks, when they are a list of 21 items or more, are
    landmark records. *)
Theorem route_returns_on_records (body : value) :
  truthy body = false ∨
  (∃ d, body = VDict d ∧
        ∀ l, dict_get d "landmarks" VNone = VList l → (21 ≤ length l)%nat →
             Forall (λ lm, landmark_record lm = true) l) →
  returns (api_handsign body).
Proof.
  intros [Hb|(d & -> & Hrec)].
  { rewrite route_skips_core by auto. by eexists. }
  destruct (dict_get d "landmarks" VNone) as [| | | | |l| |] eqn:Hget.
  6:{ destruct l as [|lm l].
      - rewrite route_skips_core; [by eexists|]. right. exists d. split; [done|].
        intros (l' & Hget' & Hl'). rewrite Hget in Hget'. by injection Hget' as <-.
      - rewrite (route_calls_core d (lm :: l) Hget) by done.
        destruct (Nat.lt_ge_cases (length (lm :: l)) 21) as [Hlen|Hlen].
        + rewrite classify_sign_short by done. by eexists.
        + rewrite classify_sign_long by done.
          destruct (classify_list_returns (lm :: l)) as [a ->]; [by apply Hrec|].
          by eexists. }
  all: rewrite route_skips_core; [by eexists|];
    right; exists d; split; [done|]; intros (l' & Hget' & _); congruence.
Qed.

End Core.

(** ** The reference runtime on the sample frames *)

Lemma hypot_sqrt_even (x y : float) : hypot_sqrt x y = hypot_sqrt (abs x) (abs y).
Proof. unfold hypot_sqrt. by rewrite !mul_abs. Qed.

Ltac run := vm_compute; reflexivity.

(** A frame whose landmarks carry no name enters the rule table when the
    wrist is there and the measurements succeed. *)
Lemma unnamed_rule_table_input (l : list value) (f : fingers) (pd : float) :
  (21 ≤ length l)%nat →
  index_by_name l = Ok ∅ →
  truthy (wrist (resolve ∅ l)) = true →
  finger_states hypot_sqrt no_str (resolve ∅ l) = Ok f →
  dist hypot_sqrt no_str (thumb_tip (resolve ∅ l)) (index_tip (resolve ∅ l)) = Ok pd →
  rule_table_input hypot_sqrt no_str l f
    (thumb_tip (resolve ∅ l)) (index_tip (resolve ∅ l)) pd.
Proof. intros Hlen Hidx Hw Hf Hd. split; [done|]. exists ∅. auto 10. Qed.

Lemma thumb_pinch_input :
  rule_table_input hypot_sqrt no_str thumb_pinch_frame
    (Fingers true false false false false) (pt 0.5) (pt 0.5) 0.
Proof.
  apply (unnamed_rule_table_input thumb_pinch_frame); run.
Qed.

Lemma point_pinch_input :
  rule_table_input hypot_sqrt no_str point_pinch_frame
    (Fingers false true false false false) (pt 0.5) (pt 0.5) 0.
Proof.
  apply (unnamed_rule_table_input point_pinch_frame); run.
Qed.

Lemma thumbs_up_input :
  rule_table_input hypot_sqrt no_str thumbs_up_frame
    (Fingers true false false false false) (pt 0.5) (pt 0) 0.5.
Proof.
  apply (unnamed_rule_table_input thumbs_up_frame); run.
Qed.

Lemma pinky_pinch_input :
  rule_table_input hypot_sqrt no_str pinky_pinch_frame
    (Fingers false false false false true) (pt 0) (pt 0) 0.
Proof.
  apply (unnamed_rule_table_input pinky_pinch_frame); run.
Qed.

(** ** The claims on the sample frames *)

(** C1, refuted as stated: a list of 21 integers makes the indexing loop
    raise AttributeError. *)
Lemma classify_raises_on_integers :
  (21 ≤ length integers_frame)%nat ∧
  classify_sign hypot_sqrt no_str (VList integers_frame) = Raise AttributeError ∧
  ¬ returns (classify_sign hypot_sqrt no_str (VList integers_frame)).
Proof.
  split; [run|]. split; [run|]. intros [a Ha]. vm_compute in Ha. discriminate.
Qed.

Lemma thumbs_up_frame_records :
  Forall (λ lm, landmark_record no_str lm = true) thumbs_up_frame.
Proof. repeat constructor. Qed.

Lemma classify_returns_on_thumbs_up_frame :
  Forall (λ lm, landmark_record no_str lm = true) thumbs_up_frame ∧
  ∃ a, classify_sign hypot_sqrt no_str (VList thumbs_up_frame) = Ok a ∧
    (¬ (∃ l, VList thumbs_up_frame = VList l ∧ (21 ≤ length l)%nat) →
     a = not_enough_landmarks) ∧
    dict_has (debug_of a) "error" || dict_has (debug_of a) "reason"
    || dict_has (debug_of a) "pinch_distance" = true.
Proof.
  split; [exact thumbs_up_frame_records|].
  apply (classify_sign_returns_on_records hypot_sqrt no_str (VList thumbs_up_frame)).
  intros l [= <-] _. exact thumbs_up_frame_records.
Defined.

(** C2, refuted as stated: a tuple of 21 landmark records is a sequence
    of length 21 and still gets the early exit. *)
Lemma tuple_frame_early_exit :
  is_sequence (VTuple thumbs_up_frame) = true ∧
  (21 ≤ py_len (VTuple thumbs_up_frame))%nat ∧
  classify_sign hypot_sqrt no_str (VTuple thumbs_up_frame) = Ok not_enough_landmarks.
Proof. repeat split; run. Qed.

Lemma pinch_beats_point_on_frame :
  rule_table_input hypot_sqrt no_str point_pinch_frame
    (Fingers false true false false false) (pt 0.5) (pt 0.5) 0 ∧
  pinch_test (pt 0.5) (pt 0.5) 0 = true ∧
  ∃ a, classify_sign hypot_sqrt no_str (VList point_pinch_frame) = Ok a ∧
       label_of a = "Pinch".
Proof.
  split; [exact point_pinch_input|]. split; [reflexivity|].
  destruct (pinch_priority hypot_sqrt no_str point_pinch_frame _ _ _ _
              point_pinch_input eq_refl) as (a & Ha & _ & _ & _ & _ & Hpoint).
  exists a. split; [exact Ha|]. apply Hpoint. reflexivity.
Defined.

(** Rule 1 answers before the pinch rule. *)
Example pinky_beats_pinch_on_frame :
  rule_table_input hypot_sqrt no_str pinky_pinch_frame
    (Fingers false false false false true) (pt 0) (pt 0) 0 ∧
  pinch_test (pt 0) (pt 0) 0 = true ∧
  classify_sign hypot_sqrt no_str (VList pinky_pinch_frame)
  = Ok ("Pinky", 0.88%float,
        with_reason (Fingers false false false false true) "TOILET").
Proof. split; [exact pinky_pinch_input|split; run]. Qed.

(** C4, refuted as stated: with only the thumb extended and the index tip
    on the thumb tip, the answer is "Pinch". *)
Lemma thumb_only_frame_is_pinch :
  rule_table_input hypot_sqrt no_str thumb_pinch_frame
    (Fingers true false false false false) (pt 0.5) (pt 0.5) 0 ∧
  classify_sign hypot_sqrt no_str (VList thumb_pinch_frame)
  = Ok ("Pinch", 0.86%float,
        fingers_dict (Fingers true false false false false)
        ++ [("pinch_distance", VFloat 0)]).
Proof. split; [exact thumb_pinch_input|run]. Qed.

Lemma thumbs_up_on_frame :
  rule_table_input hypot_sqrt no_str thumbs_up_frame
    (Fingers true false false false false) (pt 0.5) (pt 0) 0.5 ∧
  pinch_test (pt 0.5) (pt 0) 0.5 = false ∧
  classify_sign hypot_sqrt no_str (VList thumbs_up_frame)
  = Ok ("Thumbs Up", 0.90%float,
        with_reason (Fingers true false false false false) "THUMBS_UP") ∧
  count (Fingers true false false false false) = 1%nat.
Proof.
  split; [exact thumbs_up_input|]. split; [reflexivity|].
  exact (thumbs_up_unless_pinch hypot_sqrt no_str thumbs_up_frame _ _ _ _
           thumbs_up_input eq_refl eq_refl eq_refl eq_refl eq_refl eq_refl).
Defined.

(** C5, refuted as stated: the debug dict of the pinch rule has neither a
    reason nor an error code. *)
Lemma pinch_debug_has_no_code :
  ∃ a, classify_sign hypot_sqrt no_str (VList point_pinch_frame) = Ok a ∧
       label_of a = "Pinch" ∧
       dict_has (debug_of a) "reason" = false ∧
       dict_has (debug_of a) "error" = false.
Proof. eexists. split; [run|]. repeat split. Qed.

Lemma debug_payload_on_frame :
  rule_table_input hypot_sqrt no_str point_pinch_frame
    (Fingers false true false false false) (pt 0.5) (pt 0.5) 0 ∧
  classify_sign hypot_sqrt no_str (VList point_pinch_frame)
  = Ok ("Pinch", 0.86%float,
        fingers_dict (Fingers false true false false false)
        ++ [("pinch_distance", VFloat 0)]) ∧
  ∃ label conf extra,
    classify_sign hypot_sqrt no_str (VList point_pinch_frame)
    = Ok (label, conf, fingers_dict (Fingers false true false false false) ++ [extra]) ∧
    ((label ≠ "Pinch" ∧ ∃ code, code ∈ reason_codes ∧ extra = ("reason", VStr code)) ∨
     (label = "Pinch" ∧ extra = ("pinch_distance", VFloat 0))).
Proof.
  split; [exact point_pinch_input|]. split; [run|].
  exact (rule_debug_payload hypot_sqrt no_str point_pinch_frame _ _ _ _
           point_pinch_input).
Defined.

(** C6, refuted as stated: no landmark is named wrist and slot 0 holds
    None, yet the call raises AttributeError instead of answering
    NO_WRIST. *)
Lemma none_wrist_raises :
  (21 ≤ length none_wrist_frame)%nat ∧
  Forall (λ lm, ¬ carries_name lm "wrist") none_wrist_frame ∧
  none_wrist_frame !! 0%nat = Some VNone ∧
  classify_sign hypot_sqrt no_str (VList none_wrist_frame) = Raise AttributeError.
Proof.
  split; [run|]. split; [|split; run].
  repeat constructor; intros [=].
Qed.

Lemma empty_wrist_frame_nameable : Forall (λ lm, nameable lm = true) empty_wrist_frame.
Proof. repeat constructor. Qed.

Lemma empty_wrist_frame_unnamed :
  Forall (λ lm, ¬ carries_name lm "wrist") empty_wrist_frame.
Proof. repeat constructor; intros [=]. Qed.

Lemma no_wrist_on_empty_wrist_frame :
  (21 ≤ length empty_wrist_frame)%nat ∧
  classify_sign hypot_sqrt no_str (VList empty_wrist_frame) = Ok no_wrist.
Proof.
  split; [run|].
  apply (no_wrist_exit hypot_sqrt no_str empty_wrist_frame
           empty_wrist_frame_nameable empty_wrist_frame_unnamed).
  - by intros lm0 [= <-].
  - run.
Defined.

(** The boundary of C7 is reached: a pip at 0.25 from the wrist and a tip
    at exactly 0.25 + 0.04. *)
Lemma extended_boundary_on_axis :
  dist hypot_sqrt no_str (pt (0.25 + 0.04)) (pt 0) = Ok (0.25 + 0.04)%float ∧
  dist hypot_sqrt no_str (pt 0.25) (pt 0) = Ok 0.25%float ∧
  extended hypot_sqrt no_str (pt 0) (pt (0.25 + 0.04)) (pt 0.25) = Ok false.
Proof.
  split; [run|]. split; [run|].
  apply (proj2 (extended_strict hypot_sqrt no_str (pt 0) (pt (0.25 + 0.04)) (pt 0.25))
           (0.25 + 0.04)%float 0.25%float); run.
Defined.

Lemma dist_symmetric_on_axis :
  readable no_str (pt 0.25) = true ∧ readable no_str (VDict []) = true ∧
  (returns (dist hypot_sqrt no_str (pt 0.25) (pt 0.5)) ∧
   dist hypot_sqrt no_str (pt 0.25) (pt 0.5) = dist hypot_sqrt no_str (pt 0.5) (pt 0.25)) ∧
  (returns (dist hypot_sqrt no_str (pt 0.25) (VDict [])) ∧
   dist hypot_sqrt no_str (pt 0.25) (VDict []) = dist hypot_sqrt no_str (VDict []) (pt 0.25)).
Proof.
  split; [reflexivity|]. split; [reflexivity|]. split.
  - exact (dist_symmetric hypot_sqrt no_str hypot_sqrt_even (pt 0.25) (pt 0.5)
             eq_refl eq_refl).
  - exact (dist_symmetric hypot_sqrt no_str hypot_sqrt_even (pt 0.25) (VDict [])
             eq_refl eq_refl).
Defined.

Lemma last_wrist_wins_on_frame :
  index_by_name twice_named_frame = Ok {["wrist" := named_pt "wrist" 0.5]} ∧
  g {["wrist" := named_pt "wrist" 0.5]} twice_named_frame "wrist" 0
  = named_pt "wrist" 0.5.
Proof.
  assert (Hidx : index_by_name twice_named_frame
                 = Ok {["wrist" := named_pt "wrist" 0.5]}) by run.
  split; [exact Hidx|].
  refine (name_last_wins
            (replicate 5 (pt 0) ++ named_pt "wrist" 0.25 :: replicate 3 (pt 0))
            (replicate 11 (pt 0)) (named_pt "wrist" 0.5)
            {["wrist" := named_pt "wrist" 0.5]} "wrist" 0 Hidx eq_refl _ _).
  - discriminate.
  - repeat constructor; intros [=].
Defined.

(** C10, refuted as stated: the number 0 in the wrist slot is there and
    falsy, no landmark is named wrist, and the call raises AttributeError
    instead of answering NO_WRIST. *)
Lemma zero_wrist_raises :
  truthy (VInt 0) = false ∧
  (21 ≤ length zero_wrist_frame)%nat ∧
  zero_wrist_frame !! 0%nat = Some (VInt 0) ∧
  Forall (λ lm, ¬ carries_name lm "wrist") zero_wrist_frame ∧
  classify_sign hypot_sqrt no_str (VList zero_wrist_frame) = Raise AttributeError.
Proof.
  split; [reflexivity|]. split; [run|]. split; [reflexivity|]. split; [|run].
  repeat constructor; intros [=].
Qed.

Lemma empty_wrist_as_absent :
  truthy (VDict []) = false ∧
  dist hypot_sqrt no_str (VDict []) (pt 0.5) = Ok 0%float ∧
  extended hypot_sqrt no_str (pt 0) (pt 0.5) (VDict []) = Ok false ∧
  classify_sign hypot_sqrt no_str (VList empty_wrist_frame) = Ok no_wrist.
Proof.
  pose proof (falsy_as_absent hypot_sqrt no_str (VDict []) eq_refl)
    as (Hd & He & Hw).
  split; [reflexivity|]. split; [apply Hd|]. split; [apply He|].
  assert (Hlen : (21 ≤ length empty_wrist_frame)%nat) by run.
  exact (proj1 (Hw empty_wrist_frame Hlen eq_refl empty_wrist_frame_unnamed)
           eq_refl empty_wrist_frame_nameable).
Defined.

(** ** The further properties on the sample frames *)

Lemma fist_input :
  rule_table_input hypot_sqrt no_str fist_frame
    (Fingers false false false false false) (pt 0.5) (pt 0.25) 0.25.
Proof. apply (unnamed_rule_table_input fist_frame); run. Qed.

Lemma peace_input :
  rule_table_input hypot_sqrt no_str peace_frame
    (Fingers true true true false false) (pt 0.5) (pt 0.75) 0.25.
Proof. apply (unnamed_rule_table_input peace_frame); run. Qed.

Lemma ring_input :
  rule_table_input hypot_sqrt no_str ring_frame
    (Fingers false false false true false) (pt 0.5) (pt 0.25) 0.25.
Proof. apply (unnamed_rule_table_input ring_frame); run. Qed.

Lemma answer_range_on_frame :
  classify_sign hypot_sqrt no_str (VList peace_frame)
  = Ok ("Peace", 0.88%float,
        with_reason (Fingers true true true false false) "PEACE") ∧
  "Peace" ∈ labels ∧ (0.1 <=? 0.88)%float && (0.88 <=? 0.92)%float = true.
Proof.
  assert (H : classify_sign hypot_sqrt no_str (VList peace_frame)
              = Ok ("Peace", 0.88%float,
                    with_reason (Fingers true true true false false) "PEACE")) by run.
  split; [exact H|]. exact (answer_range hypot_sqrt no_str _ _ H).
Defined.

Lemma pinch_iff_on_frame :
  ∃ a, classify_sign hypot_sqrt no_str (VList fist_frame) = Ok a ∧
    (label_of a = "Pinch" ↔
       pinch_test (pt 0.5) (pt 0.25) 0.25 = true ∧
       pinky_only (Fingers false false false false false) = false ∧
       middle_only (Fingers false false false false false) = false ∧
       ring_middle_pinky (Fingers false false false false false) = false).
Proof. exact (pinch_iff hypot_sqrt no_str fist_frame _ _ _ _ fist_input). Defined.

Lemma fist_on_frame :
  pinch_test (pt 0.5) (pt 0.25) 0.25 = false ∧
  ∃ a, classify_sign hypot_sqrt no_str (VList fist_frame) = Ok a ∧
       label_of a = "Fist".
Proof.
  split; [reflexivity|].
  destruct (count_rules hypot_sqrt no_str fist_frame _ _ _ _ fist_input eq_refl)
    as (a & Ha & Hfist & _).
  exists a. split; [exact Ha|]. by apply Hfist.
Defined.

Lemma peace_with_thumb_on_frame :
  ∃ conf debug,
    classify_sign hypot_sqrt no_str (VList peace_frame) = Ok ("Peace", conf, debug).
Proof.
  exact (index_rules_ignore_thumb hypot_sqrt no_str peace_frame _ _ _ _
           peace_input eq_refl eq_refl eq_refl eq_refl).
Defined.

Lemma thumbs_up_iff_on_frame :
  ∃ a, classify_sign hypot_sqrt no_str (VList thumbs_up_frame) = Ok a ∧
    (label_of a = "Thumbs Up" ↔
       pinch_test (pt 0.5) (pt 0) 0.5 = false ∧
       Fingers true false false false false = Fingers true false false false false).
Proof.
  exact (thumbs_up_iff hypot_sqrt no_str thumbs_up_frame _ _ _ _ thumbs_up_input).
Defined.

Lemma ring_alone_is_unknown :
  ∃ a, classify_sign hypot_sqrt no_str (VList ring_frame) = Ok a ∧
       label_of a = "Unknown".
Proof.
  destruct (default_rule_iff hypot_sqrt no_str ring_frame _ _ _ _ ring_input eq_refl)
    as (a & Ha & Hiff).
  exists a. split; [exact Ha|]. apply Hiff. by left.
Defined.

Lemma list_name_raises :
  nameable (VDict [("name", VList [VInt 1])]) = false ∧
  classify_sign hypot_sqrt no_str (VList list_named_frame) = Raise TypeError.
Proof.
  split; [reflexivity|].
  refine (first_rejected_item_raises hypot_sqrt no_str (take 7 thumbs_up_frame)
            (drop 8 thumbs_up_frame) (VDict [("name", VList [VInt 1])]) _ _ eq_refl).
  - run.
  - repeat constructor.
Defined.

Lemma thumb_tip_falls_back :
  g ∅ thumbs_up_frame "thumb_tip" 4 = pt 0.5.
Proof.
  refine (unnamed_role_falls_back thumbs_up_frame ∅ "thumb_tip" 4 _ _).
  - run.
  - repeat constructor; intros [=].
Defined.

Lemma noisy_frame_same_answer :
  classify_sign hypot_sqrt no_str (VList thumbs_up_frame)
  = classify_sign hypot_sqrt no_str (VList thumbs_up_frame_noisy).
Proof.
  apply (only_role_slots_matter hypot_sqrt no_str thumbs_up_frame
           thumbs_up_frame_noisy).
  - repeat constructor.
  - repeat constructor.
  - vm_compute. lia.
  - vm_compute. lia.
  - intros i Hi. unfold role_slots in Hi.
    repeat (apply elem_of_cons in Hi as [->|Hi]; [reflexivity|]).
    by apply elem_of_nil in Hi.
Defined.

Lemma z_is_ignored :
  dist hypot_sqrt no_str (VDict [("z", VStr "deep"); ("x", VFloat 0.5)]) (pt 0)
  = dist hypot_sqrt no_str (pt 0.5) (pt 0).
Proof.
  refine (proj1 (dist_reads_x_y_only hypot_sqrt no_str "z" (VStr "deep")
                   [("x", VFloat 0.5)] (pt 0) _ _ _)); discriminate.
Defined.

Lemma missing_y_is_zero :
  dist hypot_sqrt no_str (VDict [("y", VFloat 0); ("x", VFloat 0.5)]) (pt 0)
  = dist hypot_sqrt no_str (pt 0.5) (pt 0).
Proof.
  refine (proj1 (proj1 (missing_coordinate_is_zero hypot_sqrt no_str "y"
                          [("x", VFloat 0.5)] (pt 0) _ eq_refl) _)).
  - by right.
  - discriminate.
Defined.

Lemma array_body_raises :
  api_handsign hypot_sqrt no_str (VList [VInt 1]) = Raise AttributeError.
Proof.
  exact (route_raises_on_non_object hypot_sqrt no_str (VList [VInt 1]) eq_refl eq_refl).
Defined.

Lemma one_landmark_is_a_success :
  api_handsign hypot_sqrt no_str (VDict [("landmarks", VList [VNone])])
  = Ok (success_body not_enough_landmarks, 200%Z).
Proof.
  refine (short_list_is_a_success hypot_sqrt no_str [("landmarks", VList [VNone])]
            [VNone] eq_refl _ _).
  - discriminate.
  - simpl. lia.
Defined.

Lemma route_raises_on_integers :
  api_handsign hypot_sqrt no_str (VDict [("landmarks", VList integers_frame)])
  = Raise AttributeError.
Proof.
  refine (route_wraps_core hypot_sqrt no_str [("landmarks", VList integers_frame)]
            integers_frame eq_refl _).
  discriminate.
Defined.

Lemma response_shape_on_frame :
  api_handsign hypot_sqrt no_str (VDict [("landmarks", VList thumbs_up_frame)])
  = Ok (success_body ("Thumbs Up", 0.90%float,
                      with_reason (Fingers true false false false false) "THUMBS_UP"),
        200%Z) ∧
  200%Z = 200%Z ∧
  (success_body ("Thumbs Up", 0.90%float,
                 with_reason (Fingers true false false false false) "THUMBS_UP")
   = no_landmarks_body ∨
   ∃ l a, l ≠ [] ∧ classify_sign hypot_sqrt no_str (VList l) = Ok a ∧
          success_body ("Thumbs Up", 0.90%float,
                        with_reason (Fingers true false false false false) "THUMBS_UP")
          = success_body a).
Proof.
  assert (H : api_handsign hypot_sqrt no_str
                (VDict [("landmarks", VList thumbs_up_frame)])
              = Ok (success_body
                      ("Thumbs Up", 0.90%float,
                       with_reason (Fingers true false false false false) "THUMBS_UP"),
                    200%Z)) by run.
  split; [exact H|]. exact (response_shape hypot_sqrt no_str _ _ _ H).
Defined.

Lemma route_returns_on_frame :
  returns (api_handsign hypot_sqrt no_str
             (VDict [("landmarks", VList thumbs_up_frame)])).
Proof.
  apply (route_returns_on_records hypot_sqrt no_str). right.
  exists [("landmarks", VList thumbs_up_frame)]. split; [reflexivity|].
  intros l [= <-] _. exact thumbs_up_frame_records.
Defined.
